(** * Crawl-and-extract pipeline of the pricing scrapers

    A shallow embedding of the three site scrapers (b2_scrape.py,
    ws_scrape.py and Pricing/sd_scrape.py): URL canonicalisation, the
    exclusion checks, the breadth-first crawl loop, the attribute
    cross-product, the price extractor and the known-URL file.

    Conventions.
    - Python [str] is [string]; URLs and page texts are taken to be ASCII,
      so [lower] and [strip] act on ASCII letters and ASCII white space.
    - A Python [set] is a duplicate-free list in insertion order; the order
      in which Python iterates a set is not specified and no statement
      below depends on it.
    - The browser session is an explicit world [W] threaded through every
      call that talks to the network; a loaded page is a record holding
      what the scraper reads from the DOM.
    - [urlparse(..).netloc] is a library function and is a parameter
      [netloc] of the crawlers; [simple_netloc] is the instance used on
      concrete sites.
    - A [while] loop is run with fuel: [None] means the fuel ran out. *)

From Stdlib Require Import String Ascii List Bool Arith Lia ZArith QArith.
Import ListNotations.
Close Scope Q_scope.
Open Scope string_scope.
Open Scope list_scope.
Open Scope nat_scope.

Set Implicit Arguments.

(** ** Python strings *)

Module Py.

(** [s.split(c, 1)[0]], which is also [s.split(c)[0]]: the text before the
    first occurrence of [c], the whole of [s] when there is none. *)
Fixpoint before (c : ascii) (s : string) : string :=
  match s with
  | EmptyString => EmptyString
  | String a s' => if Ascii.eqb a c then EmptyString else String a (before c s')
  end.

(** [c in s] for a one-character string [c]. *)
Fixpoint has_char (c : ascii) (s : string) : bool :=
  match s with
  | EmptyString => false
  | String a s' => Ascii.eqb a c || has_char c s'
  end.

(** [s.startswith(p)]. *)
Fixpoint startswith (p s : string) : bool :=
  match p, s with
  | EmptyString, _ => true
  | String _ _, EmptyString => false
  | String a p', String b s' => Ascii.eqb a b && startswith p' s'
  end.

(** [p in s]: [p] occurs in [s] as a substring. *)
Fixpoint contains (p s : string) : bool :=
  startswith p s ||
  match s with
  | EmptyString => false
  | String _ s' => contains p s'
  end.

(** [s.endswith(suf)]. *)
Fixpoint endswith (suf s : string) : bool :=
  String.eqb suf s ||
  match s with
  | EmptyString => false
  | String _ s' => endswith suf s'
  end.

Definition is_upper (a : ascii) : bool :=
  let n := nat_of_ascii a in (65 <=? n) && (n <=? 90).

Definition is_lower (a : ascii) : bool :=
  let n := nat_of_ascii a in (97 <=? n) && (n <=? 122).

Definition lower_char (a : ascii) : ascii :=
  if is_upper a then ascii_of_nat (nat_of_ascii a + 32) else a.

Definition upper_char (a : ascii) : ascii :=
  if is_lower a then ascii_of_nat (nat_of_ascii a - 32) else a.

(** [s.lower()]. *)
Fixpoint lower (s : string) : string :=
  match s with
  | EmptyString => EmptyString
  | String a s' => String (lower_char a) (lower s')
  end.

(** White space as [str.strip()] sees it in ASCII: tab, line feed, vertical
    tab, form feed, carriage return, the four separators 28..31, space. *)
Definition is_space (a : ascii) : bool :=
  let n := nat_of_ascii a in
  ((9 <=? n) && (n <=? 13)) || ((28 <=? n) && (n <=? 32)).

Fixpoint lstrip (s : string) : string :=
  match s with
  | EmptyString => EmptyString
  | String a s' => if is_space a then lstrip s' else s
  end.

(** [s.rstrip()]: a character is dropped when it is white space and all that
    follows it has been dropped. *)
Fixpoint rstrip (s : string) : string :=
  match s with
  | EmptyString => EmptyString
  | String a s' =>
      match rstrip s' with
      | EmptyString => if is_space a then EmptyString else String a EmptyString
      | r => String a r
      end
  end.

(** [s.strip()]. *)
Definition strip (s : string) : string := rstrip (lstrip s).

(** [s.replace(old, new)] for a non-empty [old]: occurrences are replaced
    from left to right without overlap ([skip] counts the characters of the
    occurrence just replaced that are still to be dropped). *)
Fixpoint replace_from (old new : string) (skip : nat) (s : string) : string :=
  match s with
  | EmptyString => EmptyString
  | String a s' =>
      match skip with
      | S k => replace_from old new k s'
      | O =>
          if startswith old s
          then new ++ replace_from old new (String.length old - 1) s'
          else String a (replace_from old new 0 s')
      end
  end.

Definition replace (old new s : string) : string := replace_from old new 0 s.

(** [s.title()]: a letter is upper-cased when it follows a character that is
    not a letter, lower-cased otherwise. *)
Fixpoint title_from (after_letter : bool) (s : string) : string :=
  match s with
  | EmptyString => EmptyString
  | String a s' =>
      if is_upper a || is_lower a
      then String (if after_letter then lower_char a else upper_char a)
                  (title_from true s')
      else String a (title_from false s')
  end.

Definition title (s : string) : string := title_from false s.

(** The text after the first occurrence of [c]; empty when there is none. *)
Fixpoint after (c : ascii) (s : string) : string :=
  match s with
  | EmptyString => EmptyString
  | String a s' => if Ascii.eqb a c then s' else after c s'
  end.

Definition is_digit (a : ascii) : bool :=
  let n := nat_of_ascii a in (48 <=? n) && (n <=? 57).

Fixpoint all_digits (s : string) : bool :=
  match s with
  | EmptyString => true
  | String a s' => is_digit a && all_digits s'
  end.

Fixpoint digits_to_Z (acc : Z) (s : string) : Z :=
  match s with
  | EmptyString => acc
  | String a s' =>
      digits_to_Z (10 * acc + (Z.of_nat (nat_of_ascii a) - 48))%Z s'
  end.

(** [float(num)] for a text made of digits and dots, which is all that
    reaches it here: [None] stands for [ValueError], raised unless the text
    has at least one digit and at most one dot. The float is represented by
    the decimal number it is read from. *)
Definition float (num : string) : option Q :=
  let int_part := before "." num in
  let frac_part := after "." num in
  if all_digits int_part && all_digits frac_part
     && (0 <? String.length int_part + String.length frac_part)
  then Some (Qmake (digits_to_Z 0 (int_part ++ frac_part))
                   (Z.to_pos (10 ^ Z.of_nat (String.length frac_part))))
  else None.

(** [re.sub(pattern, '', s)] for a pattern that is a negated character
    class: the characters of the class are kept. *)
Fixpoint keep (class : ascii -> bool) (s : string) : string :=
  match s with
  | EmptyString => EmptyString
  | String a s' => if class a then String a (keep class s') else keep class s'
  end.

(** [sep.join(l)]. *)
Fixpoint join (sep : string) (l : list string) : string :=
  match l with
  | [] => ""
  | [x] => x
  | x :: rest => x ++ sep ++ join sep rest
  end.

(** Truth value of a string: the empty string is falsy. *)
Definition truthy (s : string) : bool := negb (String.eqb s "").

(** [x in l] for a list or a set of strings. *)
Definition mem (x : string) (l : list string) : bool :=
  existsb (String.eqb x) l.

(** [s.add(x)] on a set kept as a duplicate-free list. *)
Definition set_add (x : string) (l : list string) : list string :=
  if mem x l then l else l ++ [x].

(** [set(l)]. *)
Definition set_of (l : list string) : list string :=
  fold_left (fun acc x => set_add x acc) l [].

(** [itertools.product] applied to the lists: the last list varies
    fastest. *)
Fixpoint itertools_product (A : Type) (lists : list (list A))
  : list (list A) :=
  match lists with
  | [] => [[]]
  | l :: rest =>
      flat_map (fun x => map (cons x) (itertools_product rest)) l
  end.


(** [while cond(s): s = body(s)], with fuel. *)
Fixpoint while_loop (S : Type) (cond : S -> bool) (body : S -> S)
    (fuel : nat) (s : S) : option S :=
  if cond s then
    match fuel with
    | O => None
    | Datatypes.S fuel' => while_loop cond body fuel' (body s)
    end
  else Some s.

(** The state after [n] iterations of [body]. *)
Fixpoint iterate (S : Type) (body : S -> S) (n : nat) (s : S) : S :=
  match n with
  | O => s
  | Datatypes.S k => iterate body k (body s)
  end.

End Py.

(** ** URL canonicalisation *)

(** sd_scrape.py, [crawl_site]: [normalized = href.split("#")[0]]. *)
Definition sd_normalize (href : string) : string := Py.before "#" href.

(** b2_scrape.py, [crawl_site]:
    [clean = href.split('#')[0].split('?', 1)[0]]. *)
Definition b2_clean (href : string) : string :=
  Py.before "?" (Py.before "#" href).

(** b2_scrape.py, [crawl_site], on dequeue: [url = raw.split('?', 1)[0]]. *)
Definition b2_strip_query (raw : string) : string := Py.before "?" raw.

(** A stand-in for [urlparse(url).netloc] on URLs of the shape
    [scheme://host/...]: the text between the first [//] that follows the
    first [:] and the next [/], [?] or [#]. *)
Fixpoint after_colon (s : string) : string :=
  match s with
  | EmptyString => EmptyString
  | String a s' => if Ascii.eqb a ":" then s' else after_colon s'
  end.

Fixpoint until_delim (s : string) : string :=
  match s with
  | EmptyString => EmptyString
  | String a s' =>
      if Ascii.eqb a "/" || Ascii.eqb a "?" || Ascii.eqb a "#"
      then EmptyString else String a (until_delim s')
  end.

Definition simple_netloc (url : string) : string :=
  match after_colon url with
  | String "/" (String "/" rest) => until_delim rest
  | _ => ""
  end.

(** ** The crawl frontier *)

(** The local variables of [crawl_site] that live across iterations:
    the sets [visited] and [product_urls] (named [products] in b2_scrape.py),
    the deque [to_visit] ([queue] in b2_scrape.py), the browser session, and
    [checked], the URLs of the "Checking URL:" / "Crawling:" lines printed
    just before each page load. *)
Record Crawl (W : Type) := mkCrawl {
  visited : list string;
  product_urls : list string;
  to_visit : list string;
  checked : list string;
  world : W
}.

(** [while to_visit and len(visited) < max_pages]; the ceiling is a page
    count, a natural number. *)
Definition crawl_cond (W : Type) (max_pages : nat) (st : Crawl W) : bool :=
  match to_visit st with
  | [] => false
  | _ :: _ => List.length (visited st) <? max_pages
  end.

(** What one iteration does to the sizes: a page joins [visited], or
    [visited] keeps its size and the queue loses its head. *)
Definition advances (W : Type) (st st' : Crawl W) : Prop :=
  length (visited st') = S (length (visited st)) \/
  (length (visited st') = length (visited st) /\
   S (length (to_visit st')) = length (to_visit st)).

(** ** Pricing/sd_scrape.py *)

Module SD.

Definition excluded_patterns : list string :=
  [ "https://www.showdowndisplays.com/cdn";
    "https://www.showdowndisplays.com/Account";
    "https://www.showdowndisplays.com/Cart";
    "https://www.showdowndisplays.com/ProductSearch";
    "&navCode=" ].

Definition download_extensions : list string :=
  [ ".pdf"; ".doc"; ".docx"; ".xls"; ".xlsx"; ".zip"; ".rar"; ".7z"; ".exe";
    ".tar"; ".gz"; ".mp3"; ".mp4" ].

(** [any(pattern in url for pattern in excluded_patterns)]. *)
Definition matches_pattern (url : string) : bool :=
  existsb (fun pattern => Py.contains pattern url) excluded_patterns.

(** [any(url.lower().endswith(ext) for ext in download_extensions)]. *)
Definition is_download (url : string) : bool :=
  existsb (fun ext => Py.endswith ext (Py.lower url)) download_extensions.

(** The table with id [USpriceTable]: the texts of the header cells of the
    first row of [thead] and of the cells of each row of [tbody]; [None]
    where [find_element] raises because the part is missing. *)
Record PriceTable := mkPriceTable {
  header_cells : option (list string);
  body_rows : option (list (list string))
}.

(** What the scraper reads from a loaded page. *)
Record Dom := mkDom {
  detail_container : bool;           (* .product-detail-container present *)
  title_breadcrumb : option string;  (* text of .title-breadcrumb *)
  zoom_image : option string;        (* url(...) in the style of div.zoomWindow *)
  anchors : list string;             (* href of each <a> read before the link
                                        loop ends, "" when it has none *)
  us_price_table : option PriceTable
}.

Definition is_product_page (d : Dom) : bool :=
  detail_container d &&
  match title_breadcrumb d with Some _ => true | None => false end.

Definition extract_product_name (d : Dom) : string :=
  match title_breadcrumb d with
  | Some t => Py.strip t
  | None => "N/A"
  end.

Definition extract_product_image (d : Dom) : string :=
  match zoom_image d with
  | Some u => u
  | None => "N/A"
  end.

(** [cell.text.strip().replace("QTY", "").strip()]. *)
Definition clean_header (cell : string) : string :=
  Py.strip (Py.replace "QTY" "" (Py.strip cell)).

(** [parse_price_table]: (qty_headers, retail_prices, your_prices). *)
Definition parse_price_table (d : Dom)
  : option (list string) * option (list string) * option (list string) :=
  match us_price_table d with
  | None => (None, None, None)
  | Some t =>
      match header_cells t, body_rows t with
      | Some cells, Some rows =>
          let qty_headers := tl (map clean_header cells) in
          match rows with
          | r0 :: r1 :: _ =>
              (Some qty_headers, Some (tl (map Py.strip r0)),
               Some (tl (map Py.strip r1)))
          | _ => (Some qty_headers, None, None)
          end
      | _, _ => (None, None, None)
      end
  end.

(** Truth value of a list that may be [None]. *)
Definition nonempty (l : option (list string)) : bool :=
  match l with
  | Some (_ :: _) => true
  | _ => false
  end.

(** [read_scraped_urls]: the set of the non-blank lines, stripped. The file
    is its list of lines; a missing file reads as the empty one. *)
Definition read_scraped_urls (file : list string) : list string :=
  Py.set_of (filter Py.truthy (map Py.strip file)).

(** [update_scraped_urls]: the file is opened with mode "w" and receives
    one line per member of [scraped_urls]. *)
Definition update_scraped_urls (file : list string)
    (scraped_urls : list string) : list string :=
  scraped_urls.

Section Session.

Variable W : Type.
(** [driver.get(url)]: the page, or [None] when it raises. *)
Variable driver_get : W -> string -> W * option Dom.
(** [login]: [false] when it ends in [SystemExit]. *)
Variable login : W -> W * bool.
Variable netloc : string -> string.

(** The links a loaded page adds to the queue, in document order. *)
Definition new_links (base_domain : string)
    (visited already_scraped : list string) (hrefs : list string)
  : list string :=
  flat_map
    (fun href =>
       if negb (Py.truthy href) then []
       else if matches_pattern href then []
       else if is_download href then []
       else if String.eqb (netloc href) base_domain then
         let normalized := sd_normalize href in
         if Py.mem normalized visited || Py.mem normalized already_scraped
         then [] else [normalized]
       else [])
    hrefs.

(** One iteration of the [while] loop of [crawl_site]. *)
Definition crawl_body (base_url : string) (already_scraped : list string)
    (st : Crawl W) : Crawl W :=
  match to_visit st with
  | [] => st
  | current_url :: rest =>
      if Py.mem current_url (visited st) || Py.mem current_url already_scraped
      then mkCrawl (visited st) (product_urls st) rest (checked st) (world st)
      else if matches_pattern current_url
      then mkCrawl (Py.set_add current_url (visited st)) (product_urls st)
                   rest (checked st) (world st)
      else if is_download current_url
      then mkCrawl (Py.set_add current_url (visited st)) (product_urls st)
                   rest (checked st) (world st)
      else
        let checked' := checked st ++ [current_url] in
        match driver_get (world st) current_url with
        | (w, None) => mkCrawl (visited st) (product_urls st) rest checked' w
        | (w, Some dom) =>
            let visited' := Py.set_add current_url (visited st) in
            let products' :=
              if negb (String.eqb current_url base_url) && is_product_page dom
              then Py.set_add current_url (product_urls st)
              else product_urls st in
            mkCrawl visited' products'
              (rest ++ new_links (netloc base_url) visited' already_scraped
                         (anchors dom))
              checked' w
        end
  end.

(** [crawl_site]: the state when the loop ends; its [product_urls] is the
    returned list. *)
Definition crawl_site (fuel : nat) (w : W) (base_url : string)
    (already_scraped : list string) (max_pages : nat) : option (Crawl W) :=
  Py.while_loop (crawl_cond max_pages) (crawl_body base_url already_scraped)
    fuel (mkCrawl [] [] [base_url] [] w).

(** The three CSV rows of one product and the update of [processed_urls];
    nothing is kept when a part of the price table is missing or empty. *)
Definition record_product (url : string) (d : Dom)
    (acc : list (list (list string)) * list string)
  : list (list (list string)) * list string :=
  let product_name := extract_product_name d in
  let product_image := extract_product_image d in
  match parse_price_table d with
  | (qty_headers, retail_prices, your_prices) =>
      if nonempty qty_headers && nonempty retail_prices && nonempty your_prices
      then
        match qty_headers, retail_prices, your_prices with
        | Some q, Some r, Some y =>
            let row_qty :=
              [product_name; url; product_image] ++ map (append "'") q in
            let row_retail := [""; ""; "Retail Price"] ++ r in
            let row_your := [""; ""; "Your Price"] ++ y in
            (fst acc ++ [[row_qty; row_retail; row_your]],
             Py.set_add url (snd acc))
        | _, _, _ => acc
        end
      else acc
  end.

(** The two [for url in ...] loops of [main]: a page that fails to load is
    skipped. *)
Fixpoint process_urls (urls : list string) (w : W)
    (acc : list (list (list string)) * list string)
  : W * (list (list (list string)) * list string) :=
  match urls with
  | [] => (w, acc)
  | url :: rest =>
      match driver_get w url with
      | (w', None) => process_urls rest w' acc
      | (w', Some d) => process_urls rest w' (record_product url d acc)
      end
  end.

(** The durable result of a run. *)
Record Outcome := mkOutcome {
  scraped_file : list string;         (* sd_products.txt *)
  csv_rows : option (list (list string));  (* last CSV written, if any *)
  completed : bool                    (* false: ended in SystemExit *)
}.

(** [main], from the known-URL file of the previous run. [None]: the crawl
    ran out of fuel. *)
Definition main (fuel : nat) (w : W) (base_url : string)
    (file : list string) : option Outcome :=
  let already_scraped := read_scraped_urls file in
  match login w with
  | (_, false) => Some (mkOutcome file None false)
  | (w1, true) =>
      match process_urls already_scraped w1 ([], []) with
      | (w2, (products, processed_urls)) =>
          match crawl_site fuel w2 base_url processed_urls 5000 with
          | None => None
          | Some st =>
              match process_urls (product_urls st) (world st)
                      (products, processed_urls) with
              | (_, (products', processed_urls')) =>
                  Some (mkOutcome
                          (update_scraped_urls file processed_urls')
                          (Some (concat products'))
                          true)
              end
          end
      end
  end.

End Session.

End SD.

(** ** ws_scrape.py *)

Module WS.

Definition excluded_patterns : list string :=
  [ "https://www.wsdisplay.com/cart";
    "https://www.wsdisplay.com/webstore";
    "https://www.wsdisplay.com/webs-tore";
    "https://www.wsdisplay.com/search?";
    "#" ].

Definition download_extensions : list string :=
  [ ".pdf"; ".doc"; ".docx"; ".xls"; ".xlsx"; ".zip"; ".rar"; ".7z"; ".exe";
    ".tar"; ".gz"; ".mp3"; ".mp4"; ".dwg" ].

Definition matches_pattern (url : string) : bool :=
  existsb (fun pattern => Py.contains pattern url) excluded_patterns.

Definition is_download (url : string) : bool :=
  existsb (fun ext => Py.endswith ext (Py.lower url)) download_extensions.

(** ["?display=" in url.lower()]. *)
Definition is_display (url : string) : bool :=
  Py.contains "?display=" (Py.lower url).

(** An [<option>] of a dropdown. *)
Record SelectOption := mkOption {
  opt_value : string;
  opt_text : string;
  opt_disabled : bool
}.

Record Dropdown := mkDropdown {
  dd_id : string;
  dd_options : list SelectOption
}.

(** What [process_pricing_data] returns: the pair (quantities, prices) of
    the tiered table, or one text (a total, a single price or "N/A"). *)
Inductive Pricing :=
| Tiered (quantities prices : list string)
| Single (text : string).

(** The selections applied so far on the live page, newest first, as pairs
    (dropdown id, option value). *)
Definition Selection := list (string * string).

(** What the scraper reads from a loaded page. The last three fields depend
    on the selections already applied: whether a dropdown can be found again
    by its id, whether [select_by_value] succeeds, and what
    [process_pricing_data] then reads. *)
Record Dom := mkDom {
  current_url : string;
  exclusion_marker : bool;      (* facet-browse, cms-landing-page or home-page *)
  product_details_view : bool;  (* ProductDetails.Full.View present *)
  hrefs : list string;          (* a.href of the anchors outside the facets *)
  body_present : bool;
  product_name : string;        (* extract_product_name(driver) *)
  image_url : string;           (* get_product_image_url(driver) *)
  dropdowns : list Dropdown;
  dropdown_found : Selection -> string -> bool;
  option_selectable : Selection -> string -> string -> bool;
  pricing : Selection -> Pricing
}.

Definition is_product_page (d : Dom) : bool :=
  if Py.contains "?" (current_url d) then false
  else if Py.contains "/newReview" (current_url d) then false
  else if is_display (current_url d) then false
  else if exclusion_marker d then false
  else product_details_view d.

(** The comprehension building [valid_opts] / [option_list]. *)
Definition valid_opts (dd : Dropdown) : list (string * string) :=
  flat_map
    (fun opt =>
       if Py.truthy (Py.strip (opt_value opt))
          && negb (String.eqb (Py.strip (opt_text opt)) "- Select -")
          && negb (opt_disabled opt)
       then [(Py.strip (opt_value opt), Py.strip (opt_text opt))]
       else [])
    (dd_options dd).

(** An element of [option_data]. *)
Record Entry := mkEntry {
  product : string * string * string;
  option_label : string;  (* key 'option' *)
  qtys : list string;
  prices : list string;
  first : bool
}.

(** [qtys, prices = pricing_data] for a tuple, [[pricing_data], []]
    otherwise. *)
Definition split_pricing (p : Pricing) : list string * list string :=
  match p with
  | Tiered q pr => (q, pr)
  | Single t => ([t], [])
  end.

(** The inner loop [for j, (val, txt) in enumerate(combo)]: the remaining
    dropdown ids with the chosen options. It stops at the first dropdown
    that is not found again or whose option cannot be selected, and returns
    the selections applied and [valid_combo]. *)
Fixpoint apply_combo (d : Dom) (sel : Selection)
    (steps : list (string * (string * string))) : Selection * bool :=
  match steps with
  | [] => (sel, true)
  | (id, (val, txt)) :: rest =>
      if negb (dropdown_found d sel id) then (sel, false)
      else if negb (option_selectable d sel id val) then (sel, false)
      else apply_combo d ((id, val) :: sel) rest
  end.

(** The loop [for combo in all_combinations]; the state is the live
    selection, [option_data] and [first_option]. *)
Fixpoint scrape_combos (d : Dom) (details : string * string * string)
    (dropdown_ids : list string) (combos : list (list (string * string)))
    (sel : Selection) (option_data : list Entry) (first_option : bool)
  : list Entry :=
  match combos with
  | [] => option_data
  | combo :: rest =>
      match apply_combo d sel (combine dropdown_ids combo) with
      | (sel', false) =>
          scrape_combos d details dropdown_ids rest sel' option_data
            first_option
      | (sel', true) =>
          let (q, p) := split_pricing (pricing d sel') in
          let option_combo_text := Py.join ", " (map snd combo) in
          scrape_combos d details dropdown_ids rest sel'
            (option_data ++ [mkEntry details option_combo_text q p first_option])
            false
      end
  end.

(** The loop [for opt_value, opt_text in option_list] of the page with at
    most one dropdown. *)
Fixpoint scrape_options (d : Dom) (details : string * string * string)
    (id : string) (option_list : list (string * string))
    (sel : Selection) (option_data : list Entry) (first_option : bool)
  : list Entry :=
  match option_list with
  | [] => option_data
  | (opt_value, opt_text) :: rest =>
      if negb (option_selectable d sel id opt_value)
      then scrape_options d details id rest sel option_data first_option
      else
        let sel' := (id, opt_value) :: sel in
        let (q, p) := split_pricing (pricing d sel') in
        scrape_options d details id rest sel'
          (option_data ++ [mkEntry details opt_text q p first_option])
          false
  end.

(** The part of [process_product_page] that follows the page load. *)
Definition scrape_page (url : string) (d : Dom) (option_data : list Entry)
  : list Entry :=
  if negb (body_present d) then option_data
  else
    let product_details := (product_name d, url, image_url d) in
    match dropdowns d with
    | _ :: _ :: _ =>
        let options_lists := map valid_opts (dropdowns d) in
        let all_combinations := Py.itertools_product options_lists in
        let dropdown_ids := map dd_id (dropdowns d) in
        scrape_combos d product_details dropdown_ids all_combinations []
          option_data true
    | _ =>
        let option_list :=
          match dropdowns d with
          | dd :: _ => valid_opts dd
          | [] => []
          end in
        match option_list, dropdowns d with
        | _ :: _, dd :: _ =>
            scrape_options d product_details (dd_id dd) option_list []
              option_data true
        | _, _ =>
            let (q, p) := split_pricing (pricing d []) in
            option_data ++ [mkEntry product_details "N/A" q p true]
        end
    end.

(** [update_known_urls]: the file is opened with mode "a". *)
Definition update_known_urls (file : list string) (new_urls : list string)
  : list string :=
  file ++ new_urls.

Section Session.

Variable W : Type.
Variable driver_get : W -> string -> W * option Dom.
Variable is_logged_in : W -> bool.
(** [login]: [false] when all attempts failed. *)
Variable login : W -> W * bool.
Variable netloc : string -> string.

Definition new_links (base_domain : string)
    (visited skip_urls : list string) (href_list : list string)
  : list string :=
  flat_map
    (fun href =>
       if matches_pattern href then []
       else if is_download href then []
       else if is_display href then []
       else if String.eqb (netloc href) base_domain then
         let normalized := Py.before "#" href in
         if Py.mem normalized visited || Py.mem normalized skip_urls
         then [] else [normalized]
       else [])
    href_list.

(** One iteration of the [while] loop of [crawl_site]. *)
Definition crawl_body (base_url : string) (skip_urls : list string)
    (st : Crawl W) : Crawl W :=
  match to_visit st with
  | [] => st
  | current_url :: rest =>
      if Py.mem current_url (visited st)
      then mkCrawl (visited st) (product_urls st) rest (checked st) (world st)
      else if matches_pattern current_url || is_download current_url
              || is_display current_url
      then mkCrawl (Py.set_add current_url (visited st)) (product_urls st)
                   rest (checked st) (world st)
      else
        let checked' := checked st ++ [current_url] in
        match driver_get (world st) current_url with
        | (w, None) => mkCrawl (visited st) (product_urls st) rest checked' w
        | (w, Some dom) =>
            let visited' := Py.set_add current_url (visited st) in
            let products' :=
              if negb (String.eqb current_url base_url) && is_product_page dom
                 && negb (Py.mem current_url skip_urls)
              then Py.set_add current_url (product_urls st)
              else product_urls st in
            if Py.contains "/newReview" current_url || is_display current_url
            then mkCrawl visited' products' rest checked' w
            else
              mkCrawl visited' products'
                (rest ++ new_links (netloc base_url) visited' skip_urls
                           (hrefs dom))
                checked' w
        end
  end.

Definition crawl_site (fuel : nat) (w : W) (base_url : string)
    (max_pages : nat) (skip_urls : list string) : option (Crawl W) :=
  Py.while_loop (crawl_cond max_pages) (crawl_body base_url skip_urls)
    fuel (mkCrawl [] [] [base_url] [] w).

(** [process_product_page]: [option_data] is extended in place. *)
Definition process_product_page (w : W) (url : string)
    (option_data : list Entry) : W * list Entry :=
  let logged :=
    if is_logged_in w then (w, true) else login w in
  match logged with
  | (w1, false) => (w1, option_data)
  | (w1, true) =>
      match driver_get w1 url with
      | (w2, None) => (w2, option_data)
      | (w2, Some d) => (w2, scrape_page url d option_data)
      end
  end.

End Session.

End WS.

(** ** b2_scrape.py *)

Module B2.

Definition MAX_RETRIES : nat := 5.
Definition RETRY_DELAY : nat := 5.
Definition INTERIM_SAVE_EVERY : nat := 10.
Definition BASE_URL : string := "https://www.b2sign.com/".

Definition excluded : list string :=
  [ "https://www.b2sign.com/user";
    "https://www.b2sign.com/downloadable";
    "https://www.b2sign.com/item/download";
    "https://www.b2sign.com/template-user-guide";
    "https://www.b2sign.com/aluminum-sign";
    "https://www.b2sign.com/reflective-aluminum-sign";
    "https://www.b2sign.com/dry-erase-pvc-board";
    "https://www.b2sign.com/coroplast";
    "https://www.b2sign.com/dry-erase-foamcore";
    "https://www.b2sign.com/reflective-aluminum-sandwich-board";
    "https://www.b2sign.com/dry-erase-magnet";
    "https://www.b2sign.com/reflective-car-magnet";
    "https://www.b2sign.com/reflective-coroplast";
    "https://www.b2sign.com/canvas-wrap";
    "https://www.b2sign.com/pole-banner-set";
    "https://www.b2sign.com/foamcore";
    "https://www.b2sign.com/dry-erase-coroplast";
    "https://www.b2sign.com/pvc-board";
    "https://www.b2sign.com/dry-erase-aluminum-sandwich-board";
    "https://www.b2sign.com/aluminum-sandwich-board" ].

Definition ext_skip : list string :=
  [ ".pdf"; ".doc"; ".docx"; ".xls"; ".xlsx"; ".zip"; ".rar"; ".7z"; ".exe";
    ".tar"; ".gz"; ".mp3"; ".mp4"; ".png" ].

(** [any(url.lower().endswith(ext) for ext in ext_skip)]. *)
Definition has_skipped_ext (url : string) : bool :=
  existsb (fun ext => Py.endswith ext (Py.lower url)) ext_skip.

(** [any(ex in url for ex in excluded)]. *)
Definition is_excluded (url : string) : bool :=
  existsb (fun ex => Py.contains ex url) excluded.

(** The exceptions that travel through this script. *)
Inductive Exn := SystemExit | ValueError | TimeoutException.

Inductive Res (A : Type) :=
| Ok (a : A)
| Raise (e : Exn).
Arguments Ok {A} a.
Arguments Raise {A} e.

(** A MUI select inside an attribute block: whether its combobox button
    becomes clickable within the wait, the label it shows, and the labels of
    the options of its list box ([None] when the list box does not become
    visible within the wait). Labels are the texts the script compares
    with, that is after the trailing parenthesis has been removed and the
    result stripped. *)
Record MuiSelect := mkSelect {
  sel_clickable : bool;
  sel_current : string;
  sel_listbox : option (list string)
}.

(** A [div] whose class starts with [_attribute_]. *)
Record AttrBlock := mkBlock {
  blk_label : option string;    (* text of "label span" *)
  blk_id : string;              (* the id attribute, "" when missing *)
  blk_buttons : list string;    (* texts of the button-group items *)
  blk_selects : list MuiSelect;
  blk_static : list string      (* texts of the static divs *)
}.

(** The options clicked so far on the live page, newest first, as pairs
    (index of the attribute block, option label). *)
Definition Chosen := list (nat * string).

(** What the scraper reads from a loaded page; the subtotal depends on the
    options clicked so far. *)
Record Dom := mkDom {
  anchors : list string;        (* href of each <a>, "" when it has none *)
  item_view_title : option string;   (* text of #item-view-title *)
  mui_input : bool;             (* an input.MuiInput-input among the attributes *)
  image_src : option string;    (* src of the product image, None: no image *)
  blocks : list AttrBlock;
  subtotal : Chosen -> option string  (* text of the _subtotal_ div *)
}.

Definition is_product_page (d : Dom) : bool :=
  match item_view_title d, subtotal d [] with
  | Some _, Some _ => true
  | _, _ => false
  end.

Definition extract_product_name (d : Dom) : Res string :=
  match item_view_title d with
  | None => Raise TimeoutException
  | Some t => if Py.truthy (Py.strip t) then Ok (Py.strip t) else Raise ValueError
  end.

Definition extract_product_image (d : Dom) : Res string :=
  match image_src d with
  | None => Raise TimeoutException
  | Some src => Ok (if Py.truthy src then src else "N/A")
  end.

(** The character class of [re.sub(r'[^0-9.]', '', ...)]. *)
Definition digit_or_dot (a : ascii) : bool :=
  Py.is_digit a || Ascii.eqb a ".".

(** [parse_price_table]: [Ok None] is the returned [None]. The wait for a
    "$" in the subtotal ends in [TimeoutException], which is caught, when
    the element is missing or its text has no "$". *)
Definition parse_price_table (d : Dom) (chosen : Chosen) : Res (option Q) :=
  match subtotal d chosen with
  | None => Ok None
  | Some text =>
      if Py.contains "$" text then
        let num := Py.keep digit_or_dot (Py.strip text) in
        if Py.truthy num then
          match Py.float num with
          | Some q => Ok (Some q)
          | None => Raise ValueError
          end
        else Ok None
      else Ok None
  end.

(** [if t and t not in vals: vals.append(t)]. *)
Definition add_val (t : string) (vals : list string) : list string :=
  if Py.truthy t && negb (Py.mem t vals) then vals ++ [t] else vals.

(** The same with the "please select" placeholder left out. *)
Definition add_option (t : string) (vals : list string) : list string :=
  if Py.truthy t && negb (Py.startswith "please select" (Py.lower t))
     && negb (Py.mem t vals)
  then vals ++ [t] else vals.

Definition select_vals (vals : list string) (sc : MuiSelect) : list string :=
  if negb (sel_clickable sc) then vals
  else
    let vals := add_option (sel_current sc) vals in
    match sel_listbox sc with
    | None => vals
    | Some lis => fold_left (fun v txt => add_option txt v) lis vals
    end.

Definition block_name (attr : AttrBlock) : string :=
  match blk_label attr with
  | Some l => Py.strip l
  | None =>
      Py.title
        (Py.replace "_" " "
           (Py.replace "-" " " (Py.replace "attr-" "" (blk_id attr))))
  end.

Definition block_vals (attr : AttrBlock) : list string :=
  match fold_left (fun v it => add_val (Py.strip it) v) (blk_buttons attr) []
  with
  | (_ :: _) as vals => vals
  | [] =>
      let vals := fold_left select_vals (blk_selects attr) [] in
      fold_left (fun v t => add_val (Py.strip t) v) (blk_static attr) vals
  end.

(** [options_map[name] = vals] on a dict kept in insertion order. *)
Fixpoint dict_set (name : string) (vals : list string)
    (m : list (string * list string)) : list (string * list string) :=
  match m with
  | [] => [(name, vals)]
  | (k, v) :: rest =>
      if String.eqb k name then (k, vals) :: rest
      else (k, v) :: dict_set name vals rest
  end.

Definition get_attribute_options (d : Dom) : list (string * list string) :=
  fold_left
    (fun options_map attr =>
       match block_vals attr with
       | [] => options_map
       | vals => dict_set (block_name attr) vals options_map
       end)
    (blocks d) [].

(** The first attribute block the XPath of [set_attribute] matches: its
    label is [name] (the [normalize-space] of the XPath is taken as
    [strip]) or its id contains the slug of [name]. *)
Definition block_matches (name : string) (attr : AttrBlock) : bool :=
  match blk_label attr with
  | Some l => String.eqb (Py.strip l) name
  | None => false
  end
  || Py.contains (Py.replace " " "_" (Py.lower name)) (blk_id attr).

Fixpoint find_block (name : string) (i : nat) (bs : list AttrBlock)
  : option (nat * AttrBlock) :=
  match bs with
  | [] => None
  | attr :: rest =>
      if block_matches name attr then Some (i, attr)
      else find_block name (S i) rest
  end.

Definition select_offers (value : string) (sc : MuiSelect) : bool :=
  sel_clickable sc &&
  match sel_listbox sc with
  | Some lis => Py.mem value lis
  | None => false
  end.

(** [set_attribute]: the option is clicked when the block is found and a
    button or a list-box option carries exactly [value]; otherwise the
    function returns and the page is as it was. *)
Definition set_attribute (d : Dom) (chosen : Chosen) (name value : string)
  : Chosen :=
  match find_block name 0 (blocks d) with
  | None => chosen
  | Some (i, attr) =>
      if existsb (fun it => String.eqb (Py.strip it) value) (blk_buttons attr)
      then (i, value) :: chosen
      else if existsb (select_offers value) (blk_selects attr)
      then (i, value) :: chosen
      else chosen
  end.

(** The last field of a row: [price or ""]. *)
Inductive PriceField :=
| EmptyPrice
| Price (q : Q).

Definition price_or_empty (price : option Q) : PriceField :=
  match price with
  | Some q => if Qeq_bool q 0 then EmptyPrice else Price q
  | None => EmptyPrice
  end.

(** [[name, url, img, opt_str, price or ""]]. *)
Record Row := mkRow {
  row_product : string;
  row_url : string;
  row_image : string;
  row_options : string;
  row_price : PriceField
}.

(** ["; ".join(f"{n}: {v}" for n, v in zip(attrs.keys(), combo))]. *)
Definition opt_str (keys combo : list string) : string :=
  Py.join "; "
    (map (fun nv => (fst nv ++ ": " ++ snd nv)%string) (combine keys combo)).

(** [for n, v in zip(attrs.keys(), combo): set_attribute(driver, n, v)]. *)
Definition set_attributes (d : Dom) (chosen : Chosen)
    (keys combo : list string) : Chosen :=
  fold_left (fun c nv => set_attribute d c (fst nv) (snd nv))
    (combine keys combo) chosen.

(** The loop [for combo in itertools.product(...)] of [main]. *)
Fixpoint scrape_combos (d : Dom) (name url img : string) (keys : list string)
    (combos : list (list string)) (seen : list string) (chosen : Chosen)
    (all_rows : list Row) : Res (list Row) :=
  match combos with
  | [] => Ok all_rows
  | combo :: rest =>
      let s := opt_str keys combo in
      if Py.mem s seen
      then scrape_combos d name url img keys rest seen chosen all_rows
      else
        let chosen' := set_attributes d chosen keys combo in
        match parse_price_table d chosen' with
        | Raise e => Raise e
        | Ok price =>
            scrape_combos d name url img keys rest (Py.set_add s seen) chosen'
              (all_rows ++ [mkRow name url img s (price_or_empty price)])
        end
  end.

(** What the body of the [for url in ...] loops does with a loaded page:
    [Skipped] is a [continue] taken before any row is produced. *)
Inductive Scraped :=
| Skipped
| Rows (all_rows : list Row).

Definition scrape_page (url : string) (d : Dom) (all_rows : list Row)
  : Res Scraped :=
  if mui_input d then Ok Skipped
  else
    match extract_product_name d with
    | Raise _ => Ok Skipped
    | Ok name =>
        match extract_product_image d with
        | Raise e => Raise e
        | Ok img =>
            match get_attribute_options d with
            | [] =>
                match parse_price_table d [] with
                | Raise e => Raise e
                | Ok price =>
                    Ok (Rows (all_rows
                                ++ [mkRow name url img "" (price_or_empty price)]))
                end
            | attrs =>
                match scrape_combos d name url img (map fst attrs)
                        (Py.itertools_product (map snd attrs)) [] [] all_rows
                with
                | Raise e => Raise e
                | Ok rows => Ok (Rows rows)
                end
            end
        end
    end.

(** The rows in [all_rows] after the page, when the page was scraped to the
    end; [[]] otherwise. *)
Definition emitted (r : Res Scraped) : list Row :=
  match r with
  | Ok (Rows rows) => rows
  | _ => []
  end.

(** [write_csv]: the rows under the header; the identity columns are blank
    on the rows that repeat the product of the row above. *)
Fixpoint group_rows (last : option string) (rows : list Row) : list Row :=
  match rows with
  | [] => []
  | r :: rest =>
      let same :=
        match last with
        | Some p => String.eqb (row_product r) p
        | None => false
        end in
      (if same then mkRow "" "" "" (row_options r) (row_price r) else r)
        :: group_rows (Some (row_product r)) rest
  end.

Definition write_csv (rows : list Row) : list Row := group_rows None rows.

Section Session.

Variable W : Type.
(** One load attempt, [driver.get(url)] followed by [wait_for_full_load]:
    the page, or [None] when a [WebDriverException] is raised. *)
Variable driver_get : W -> string -> W * option Dom.
(** [time.sleep(seconds)]. *)
Variable sleep : nat -> W -> W.
(** The part of [login] after the page load: [false] when one of its waits
    raises [TimeoutException]. *)
Variable login_form : W -> W * bool.
Variable netloc : string -> string.

(** Either the loaded page or the [SystemExit] of [load_page_with_retry]. *)
Inductive Load :=
| Loaded (d : Dom)
| Exited.

(** The [for attempt in range(1, MAX_RETRIES + 1)] loop, from the attempt
    that has [retries_left] attempts after it: [attempt < MAX_RETRIES]
    holds exactly when [retries_left] is not zero. *)
Fixpoint load_attempts (retries_left : nat) (w : W) (url : string)
  : W * Load :=
  match driver_get w url with
  | (w', Some d) => (w', Loaded d)
  | (w', None) =>
      match retries_left with
      | S k => load_attempts k (sleep RETRY_DELAY w') url
      | O => (w', Exited)
      end
  end.

Definition load_page_with_retry (w : W) (url : string) : W * Load :=
  load_attempts (MAX_RETRIES - 1) w url.

(** The links a loaded page adds to the queue, in document order. *)
Definition new_links (domain : string) (visited already_scraped : list string)
    (hrefs : list string) : list string :=
  flat_map
    (fun href =>
       if String.eqb (netloc href) domain then
         let clean := b2_clean href in
         if Py.mem clean visited || Py.mem clean already_scraped
         then [] else [clean]
       else [])
    hrefs.

(** One iteration of the [while] loop of [crawl_site]. *)
Definition crawl_body (base_url : string) (already_scraped : list string)
    (st : Crawl W) : Crawl W :=
  match to_visit st with
  | [] => st
  | raw :: rest =>
      let url := b2_strip_query raw in
      if Py.mem url (visited st) || Py.mem url already_scraped
         || has_skipped_ext url || is_excluded url
      then mkCrawl (Py.set_add url (visited st)) (product_urls st) rest
                   (checked st) (world st)
      else
        let checked' := checked st ++ [url] in
        match load_page_with_retry (world st) url with
        | (w, Exited) =>
            mkCrawl (Py.set_add url (visited st)) (product_urls st) rest
                    checked' w
        | (w, Loaded dom) =>
            let visited' := Py.set_add url (visited st) in
            let products' :=
              if negb (String.eqb url base_url) && is_product_page dom
              then Py.set_add url (product_urls st)
              else product_urls st in
            mkCrawl visited' products'
              (rest ++ new_links (netloc base_url) visited' already_scraped
                         (anchors dom))
              checked' w
        end
  end.

Definition crawl_site (fuel : nat) (w : W) (base_url : string)
    (already_scraped : list string) (max_pages : nat) : option (Crawl W) :=
  Py.while_loop (crawl_cond max_pages) (crawl_body base_url already_scraped)
    fuel (mkCrawl [] [] [base_url] [] w).

(** The variables of [main] and the two files it writes. *)
Record Run := mkRun {
  all_rows : list Row;
  product_count : nat;
  new_count : nat;
  batch_new : list string;
  processed : list string;
  scraped_file : list string;      (* b2_products.txt, one URL per line *)
  csv_file : option (list Row);    (* the CSV as last written, if ever *)
  session : W
}.

(** [if product_count % INTERIM_SAVE_EVERY == 0: write_csv(...)]. *)
Definition interim_save (count : nat) (rows : list Row)
    (csv : option (list Row)) : option (list Row) :=
  if count mod INTERIM_SAVE_EVERY =? 0 then Some (write_csv rows) else csv.

(** The loop over the URLs of the known-URL file. The second component is
    the exception that leaves the loop, if any. *)
Fixpoint scrape_existing (initial : list string) (r : Run)
  : Run * option Exn :=
  match initial with
  | [] => (r, None)
  | url :: rest =>
      match load_page_with_retry (session r) url with
      | (w, Exited) =>
          (mkRun (all_rows r) (product_count r) (new_count r) (batch_new r)
                 (processed r) (scraped_file r) (csv_file r) w,
           Some SystemExit)
      | (w, Loaded d) =>
          match scrape_page url d (all_rows r) with
          | Raise e =>
              (mkRun (all_rows r) (product_count r) (new_count r)
                     (batch_new r) (processed r) (scraped_file r)
                     (csv_file r) w,
               Some e)
          | Ok Skipped =>
              scrape_existing rest
                (mkRun (all_rows r) (product_count r) (new_count r)
                       (batch_new r) (processed r) (scraped_file r)
                       (csv_file r) w)
          | Ok (Rows rows) =>
              let count := S (product_count r) in
              scrape_existing rest
                (mkRun rows count (new_count r) (batch_new r) (processed r)
                       (scraped_file r)
                       (interim_save count rows (csv_file r)) w)
          end
      end
  end.

(** The loop over the URLs found by the crawl. *)
Fixpoint scrape_new (new_urls : list string) (r : Run) : Run * option Exn :=
  match new_urls with
  | [] => (r, None)
  | url :: rest =>
      match load_page_with_retry (session r) url with
      | (w, Exited) =>
          (mkRun (all_rows r) (product_count r) (new_count r) (batch_new r)
                 (processed r) (scraped_file r) (csv_file r) w,
           Some SystemExit)
      | (w, Loaded d) =>
          match scrape_page url d (all_rows r) with
          | Raise e =>
              (mkRun (all_rows r) (product_count r) (new_count r)
                     (batch_new r) (processed r) (scraped_file r)
                     (csv_file r) w,
               Some e)
          | Ok Skipped =>
              scrape_new rest
                (mkRun (all_rows r) (product_count r) (S (new_count r))
                       (batch_new r ++ [url]) (Py.set_add url (processed r))
                       (scraped_file r) (csv_file r) w)
          | Ok (Rows rows) =>
              let batch := batch_new r ++ [url] in
              let ncount := S (new_count r) in
              let count := S (product_count r) in
              let flush := ncount mod 10 =? 0 in
              scrape_new rest
                (mkRun rows count ncount
                       (if flush then [] else batch)
                       (Py.set_add url (processed r))
                       (if flush then scraped_file r ++ batch
                        else scraped_file r)
                       (interim_save count rows (csv_file r)) w)
          end
      end
  end.

(** [main], from the known-URL file of the previous run: the final state
    and the exception that ended the run, if any. [None]: the crawl ran out
    of fuel. *)
Definition main (fuel : nat) (w : W) (file : list string)
  : option (Run * option Exn) :=
  let initial := file in
  let r0 := mkRun [] 0 0 [] (Py.set_of initial) file None in
  match load_page_with_retry w BASE_URL with
  | (w0, Exited) => Some (r0 w0, Some SystemExit)
  | (w0, Loaded _) =>
      match login_form w0 with
      | (w1, false) => Some (r0 w1, Some TimeoutException)
      | (w1, true) =>
          match scrape_existing initial (r0 w1) with
          | (r1, Some e) => Some (r1, Some e)
          | (r1, None) =>
              match crawl_site fuel (session r1) BASE_URL (processed r1) 5000
              with
              | None => None
              | Some st =>
                  let r2 :=
                    mkRun (all_rows r1) (product_count r1) (new_count r1)
                          (batch_new r1) (processed r1) (scraped_file r1)
                          (csv_file r1) (world st) in
                  match scrape_new (product_urls st) r2 with
                  | (r3, Some e) => Some (r3, Some e)
                  | (r3, None) =>
                      Some
                        (mkRun (all_rows r3) (product_count r3) (new_count r3)
                               (batch_new r3) (processed r3)
                               (scraped_file r3 ++ batch_new r3)
                               (Some (write_csv (all_rows r3))) (session r3),
                         None)
                  end
              end
          end
      end
  end.

End Session.

End B2.

(** ** ws_scrape.py: prices, rows and the run *)

Module WSRows.

(** The part of the page [process_pricing_data] reads: the cell texts of
    each row of the quantity table ([None] when the container, its table or
    its [tbody] is missing), the text of the updated total, and the text of
    [span.product-price]; [None] where the lookup raises. *)
Record PricingDom := mkPricingDom {
  tier_rows : option (list (list string));
  total_price : option string;
  product_price : option string
}.

(** The loop over the rows of the table: the first two cells, stripped, of
    every row that has at least two cells. *)
Fixpoint tier_pairs (rows : list (list string)) : list (string * string) :=
  match rows with
  | [] => []
  | (c0 :: c1 :: _) :: rest => (Py.strip c0, Py.strip c1) :: tier_pairs rest
  | _ :: rest => tier_pairs rest
  end.

(** The last [try] of [process_pricing_data]. *)
Definition fallback_price (p : PricingDom) : WS.Pricing :=
  match product_price p with
  | Some t => WS.Single (Py.strip t)
  | None => WS.Single "N/A"
  end.

Definition process_pricing_data (p : PricingDom) : WS.Pricing :=
  match tier_rows p with
  | None => fallback_price p
  | Some [] =>
      match total_price p with
      | Some t => WS.Single (Py.strip t)
      | None => fallback_price p
      end
  | Some rows =>
      match tier_pairs rows with
      | [] => fallback_price p
      | pairs => WS.Tiered (map fst pairs) (map snd pairs)
      end
  end.

(** [re.match(r"^\d+\s*-\s*\d+$", qty)]: digits, white space, a dash, white
    space, digits, and then the end of the text or its final line feed. *)
Fixpoint drop_while (f : ascii -> bool) (s : string) : string :=
  match s with
  | EmptyString => EmptyString
  | String a s' => if f a then drop_while f s' else s
  end.

Definition starts_with_digit (s : string) : bool :=
  match s with
  | String a _ => Py.is_digit a
  | EmptyString => false
  end.

Definition at_end (s : string) : bool :=
  String.eqb s "" || String.eqb s (String (ascii_of_nat 10) "").

Definition is_qty_range (qty : string) : bool :=
  starts_with_digit qty &&
  match drop_while Py.is_space (drop_while Py.is_digit qty) with
  | String "-" rest =>
      let low := drop_while Py.is_space rest in
      starts_with_digit low && at_end (drop_while Py.is_digit low)
  | _ => false
  end.

Definition fix_qty_value (qty : string) : string :=
  if is_qty_range qty then String "'" (Py.replace " " "" qty) else qty.

(** The first loop of [generate_final_rows], which rewrites the [qtys] of
    the entries of [option_data] in place. *)
Definition fix_entry (e : WS.Entry) : WS.Entry :=
  WS.mkEntry (WS.product e) (WS.option_label e)
    (map fix_qty_value (WS.qtys e)) (WS.prices e) (WS.first e).

(** [max((len(entry['qtys']) for entry in option_data if entry['qtys']),
    default=1)]. *)
Definition max_qty_cols (option_data : list WS.Entry) : nat :=
  match filter (fun n => negb (n =? 0))
               (map (fun e => length (WS.qtys e)) option_data) with
  | [] => 1
  | lens => fold_right Nat.max 0 lens
  end.

(** [l + [""] * (n - len(l))]. *)
Definition pad (n : nat) (l : list string) : list string :=
  l ++ repeat "" (n - length l).

(** The rows one entry contributes, its [qtys] already fixed. *)
Definition entry_rows (cols : nat) (e : WS.Entry) : list (list string) :=
  let option_text :=
    if Py.truthy (Py.strip (WS.option_label e))
    then Py.strip (WS.option_label e) else "N/A" in
  let qtys := pad cols (WS.qtys e) in
  let prices := pad cols (WS.prices e) in
  let identity :=
    if WS.first e
    then match WS.product e with (name, url, image) => [name; url; image] end
    else [""; ""; ""] in
  match prices with
  | _ :: _ =>
      [identity ++ [option_text] ++ qtys; [""; ""; ""; ""] ++ prices]
  | [] => [identity ++ [option_text] ++ qtys ++ repeat "" cols]
  end.

(** [generate_final_rows]: the entries as the call leaves them, and the
    rows it returns. *)
Definition generate_final_rows (option_data : list WS.Entry)
  : list WS.Entry * list (list string) :=
  let fixed := map fix_entry option_data in
  (fixed, flat_map (entry_rows (max_qty_cols fixed)) fixed).

(** [save_csv]: [option_data] after the call and the file written. *)
Definition save_csv (option_data : list WS.Entry)
  : list WS.Entry * list (list string) :=
  generate_final_rows option_data.

(** [read_known_urls]: the set of the non-blank lines, stripped; a missing
    file reads as the empty one. *)
Definition read_known_urls (file : list string) : list string :=
  Py.set_of (filter Py.truthy (map Py.strip file)).

Definition BASE_URL : string := "https://www.wsdisplay.com/".

Section Session.

Variable W : Type.
Variable driver_get : W -> string -> W * option WS.Dom.
Variable is_logged_in : W -> bool.
(** One pass of the loop of [login]: the load of the login page, taken to
    succeed, and the form; [false] when the form raises. *)
Variable login_attempt : W -> W * bool.
(** [time.sleep(seconds)]. *)
Variable sleep : nat -> W -> W.
Variable netloc : string -> string.

(** [login]: [for attempt in range(retries)]. *)
Fixpoint login (retries : nat) (w : W) : W * bool :=
  match retries with
  | O => (w, false)
  | S k =>
      match login_attempt w with
      | (w', true) => (w', true)
      | (w', false) => login k (sleep 5 w')
      end
  end.

(** The two [for i, url in enumerate(...)] loops of [main]; [i] is the
    index of the first URL of [urls]. *)
Fixpoint process_all (urls : list string) (i : nat) (w : W)
    (option_data : list WS.Entry) (csv : option (list (list string)))
  : W * list WS.Entry * option (list (list string)) :=
  match urls with
  | [] => (w, option_data, csv)
  | url :: rest =>
      match WS.process_product_page driver_get is_logged_in (login 5) w url
              option_data with
      | (w', data) =>
          if (i + 1) mod 10 =? 0
          then
            match save_csv data with
            | (data', rows) => process_all rest (S i) w' data' (Some rows)
            end
          else process_all rest (S i) w' data csv
      end
  end.

(** The durable result of a run and the entries in memory at its end. *)
Record Outcome := mkOutcome {
  known_urls_file : list string;            (* ws_products.txt *)
  csv_rows : option (list (list string));   (* the CSV as last written *)
  option_data : list WS.Entry
}.

(** [main], from the known-URL file of the previous run. [None]: the crawl
    ran out of fuel. *)
Definition main (fuel : nat) (w : W) (file : list string) : option Outcome :=
  let known_urls := read_known_urls file in
  let after_known :=
    match known_urls with
    | [] => (w, [], None)
    | _ :: _ =>
        match process_all known_urls 0 w [] None with
        | (w1, data, _) =>
            match save_csv data with
            | (data', rows) => (w1, data', Some rows)
            end
        end
    end in
  match after_known with
  | (w1, data1, csv1) =>
      match WS.crawl_site driver_get netloc fuel w1 BASE_URL (10 * 1000)
              known_urls
      with
      | None => None
      | Some st =>
          let new_product_urls :=
            filter (fun url => negb (Py.mem url known_urls)) (product_urls st)
          in
          let file' := WS.update_known_urls file new_product_urls in
          match process_all new_product_urls 0 (world st) data1 csv1 with
          | (_, data2, _) =>
              match save_csv data2 with
              | (data3, rows) => Some (mkOutcome file' (Some rows) data3)
              end
          end
      end
  end.

End Session.

End WSRows.

(** * Loop invariants of the crawls *)

(** sd_scrape.py: every queued URL other than the seed has no fragment, and
    every URL the crawl has tried to load passed both exclusion checks as it
    stood in the queue. *)
Definition sd_inv (W : Type) (base_url : string) (st : Crawl W) : Prop :=
  (forall u, In u (to_visit st) -> u = base_url \/ sd_normalize u = u) /\
  (forall u, In u (checked st) ->
     SD.matches_pattern u = false /\ SD.is_download u = false /\
     (u = base_url \/ sd_normalize u = u)).

(** b2_scrape.py: every queued URL other than the seed is canonical; the
    URLs the crawl has tried to load are pairwise distinct, all in
    [visited], none known before the run, none excluded, and all
    canonical. *)
Definition b2_inv (W : Type) (base_url : string) (known : list string)
    (st : Crawl W) : Prop :=
  (forall u, In u (to_visit st) -> u = base_url \/ b2_clean u = u) /\
  NoDup (checked st) /\
  (forall u, In u (checked st) ->
     Py.mem u (visited st) = true /\ Py.mem u known = false /\
     B2.is_excluded u = false /\ B2.has_skipped_ext u = false /\
     b2_strip_query u = u /\
     (u = b2_strip_query base_url \/ b2_clean u = u)).

(** The product URLs a crawl has collected are pairwise distinct, none is
    the seed, none was known before the run, and each has been loaded and
    is in [visited]. *)
Definition products_new (W : Type) (base_url : string) (known : list string)
    (st : Crawl W) : Prop :=
  NoDup (product_urls st) /\
  forall u, In u (product_urls st) ->
    u <> base_url /\ ~ In u known /\ In u (visited st) /\ In u (checked st).

(** ws_scrape.py: every queued URL other than the seed is unknown, and every
    URL the crawl has tried to load passed the exclusion checks. *)
Definition ws_inv (W : Type) (base_url : string) (skip_urls : list string)
    (st : Crawl W) : Prop :=
  (forall u, In u (to_visit st) -> u = base_url \/ ~ In u skip_urls) /\
  (forall u, In u (checked st) ->
     WS.matches_pattern u = false /\ WS.is_download u = false /\
     WS.is_display u = false /\ (u = base_url \/ ~ In u skip_urls)).

(** b2_scrape.py, [main]: the CSV on disk, if any, is [write_csv] of the
    rows that were in memory at some earlier point. *)
Definition csv_is_snapshot (W : Type) (r : B2.Run W) : Prop :=
  match B2.csv_file r with
  | None => True
  | Some csv =>
      exists written later,
        B2.all_rows r = written ++ later /\ csv = B2.write_csv written
  end.

(** ws_scrape.py: among the entries recorded for one page, the first
    carries [first_option] and the others [False]. *)
Definition first_flags (first_option : bool) (more : list WS.Entry) : Prop :=
  match more with
  | [] => True
  | e :: rest =>
      WS.first e = first_option /\ Forall (fun e' => WS.first e' = false) rest
  end.




(** A text that does not begin with white space. *)
Definition no_leading_space (s : string) : Prop :=
  match s with
  | EmptyString => True
  | String a _ => Py.is_space a = false
  end.

(** * Concrete sites *)

(** Sites whose pages do not change: the session carries no state. *)
Module Sites.

Definition always_logged_in (w : unit) : unit * bool := (w, true).

(** A showdowndisplays page that is not a product page. *)
Definition sd_page (links : list string) : SD.Dom :=
  SD.mkDom false None None links None.

Definition sd_base : string := "https://www.showdowndisplays.com/".

(** The home page links twice to a page whose load raises. *)
Definition sd_flaky : string := "https://www.showdowndisplays.com/flaky".

Definition sd_flaky_site (w : unit) (url : string) : unit * option SD.Dom :=
  if String.eqb url sd_base then (w, Some (sd_page [sd_flaky; sd_flaky]))
  else (w, None).

(** The home page links to a PDF with a version in the query string. *)
Definition sd_brochure : string :=
  "https://www.showdowndisplays.com/brochure.pdf".

Definition sd_brochure_v2 : string := sd_brochure ++ "?v=2".

Definition sd_brochure_site (w : unit) (url : string)
  : unit * option SD.Dom :=
  if String.eqb url sd_base then (w, Some (sd_page [sd_brochure_v2]))
  else if String.eqb url sd_brochure_v2 then (w, Some (sd_page []))
  else (w, None).

(** A known product whose page no longer shows a price table; the home page
    has no links. *)
Definition sd_stand : string :=
  "https://www.showdowndisplays.com/banner-stand".

Definition sd_stand_site (w : unit) (url : string) : unit * option SD.Dom :=
  if String.eqb url sd_base then (w, Some (sd_page []))
  else if String.eqb url sd_stand
  then (w, Some (SD.mkDom true (Some "Banner Stand") None [] None))
  else (w, None).

(** A shop: the home page links to a product with a price table, to the
    home page with a fragment, and to the cart. *)
Definition sd_table : SD.PriceTable :=
  SD.mkPriceTable (Some ["QTY"; "QTY 1"; "QTY 5"])
    (Some [["Retail"; "$10.00"; "$9.00"]; ["Your"; "$8.00"; "$7.00"]]).

Definition sd_shop_site (w : unit) (url : string) : unit * option SD.Dom :=
  if String.eqb url sd_base
  then (w, Some (sd_page [sd_stand; "https://www.showdowndisplays.com/#top";
                          "https://www.showdowndisplays.com/Cart"]))
  else if String.eqb url sd_stand
  then (w, Some (SD.mkDom true (Some " Banner Stand ") None [sd_base]
                          (Some sd_table)))
  else (w, None).

End Sites.

(** Pages of b2sign.com, on a site whose loads either always succeed or
    always raise. *)
Module B2Sites.

Definition no_sleep (seconds : nat) (w : unit) : unit := w.
Definition login_ok (w : unit) : unit * bool := (w, true).

(** The home page, without links. *)
Definition home : B2.Dom := B2.mkDom [] None false None [] (fun _ => None).

(** A product page without attribute controls showing [price_text]. *)
Definition plain_product (price_text : string) : B2.Dom :=
  B2.mkDom [] (Some "Vinyl Banner") false
    (Some "https://www.b2sign.com/img/banner.jpg") []
    (fun _ => Some price_text).

Definition banner : string := "https://www.b2sign.com/vinyl-banner".

(** The one known product page cannot be loaded. *)
Definition unreachable_site (w : unit) (url : string)
  : unit * option B2.Dom :=
  if String.eqb url B2.BASE_URL then (w, Some home) else (w, None).

(** The one known product page shows [price_text]. *)
Definition banner_site (price_text : string) (w : unit) (url : string)
  : unit * option B2.Dom :=
  if String.eqb url B2.BASE_URL then (w, Some home)
  else if String.eqb url banner then (w, Some (plain_product price_text))
  else (w, None).

Definition buttons (label : string) (items : list string) : B2.AttrBlock :=
  B2.mkBlock (Some label) "" items [] [].

(** Size: S, M and Color: Red, at 5 dollars whatever is chosen. *)
Definition size_color : B2.Dom :=
  B2.mkDom [] (Some "T-Shirt") false (Some "https://www.b2sign.com/img/t.jpg")
    [buttons "Size" ["S"; "M"]; buttons "Color" ["Red"]]
    (fun _ => Some "$5.00").

(** Two attributes whose option labels contain the separators of the option
    string. *)
Definition overlapping : B2.Dom :=
  B2.mkDom [] (Some "Banner") false (Some "https://www.b2sign.com/img/b.jpg")
    [buttons "Size" ["24x36"; "24x36; Grommets: Yes"];
     buttons "Grommets" ["Yes"; "Yes; Grommets: Yes"]]
    (fun _ => Some "$5.00").


(** A session that counts the load attempts and the seconds slept; every
    load raises. *)
Definition failing_get (w : nat * nat) (url : string)
  : nat * nat * option B2.Dom :=
  ((S (fst w), snd w), None).

Definition counting_sleep (seconds : nat) (w : nat * nat) : nat * nat :=
  (fst w, snd w + seconds).

(** The page loads from the [k]-th attempt on. *)
Definition loads_at (k : nat) (d : B2.Dom) (w : nat * nat) (url : string)
  : nat * nat * option B2.Dom :=
  ((S (fst w), snd w), if S (fst w) <? k then None else Some d).

(** A shop: the home page links to the banner, twice, and to the account
    pages; the banner page costs 5 dollars. *)
Definition shop_home : B2.Dom :=
  B2.mkDom [banner; "https://www.b2sign.com/vinyl-banner?ref=home#top";
            "https://www.b2sign.com/user/login"; ""]
    None false None [] (fun _ => None).

Definition shop_site (w : unit) (url : string) : unit * option B2.Dom :=
  if String.eqb url B2.BASE_URL then (w, Some shop_home)
  else if String.eqb url banner then (w, Some (plain_product "$5.00"))
  else (w, None).

End B2Sites.

(** Pages of wsdisplay.com. *)
Module WSSites.

Definition opt (value text : string) : WS.SelectOption :=
  WS.mkOption value text false.

(** Two dropdowns, Size: S, M and Color: Red; once Size is M the colour
    cannot be selected. *)
Definition size_color : WS.Dom :=
  WS.mkDom "https://www.wsdisplay.com/t-shirt" false true [] true
    "T-Shirt" "https://www.wsdisplay.com/img/t.jpg"
    [WS.mkDropdown "size" [opt "" "- Select -"; opt "1" "S"; opt "2" "M"];
     WS.mkDropdown "color" [opt "" "- Select -"; opt "7" "Red"]]
    (fun _ _ => true)
    (fun sel id _ =>
       match sel with
       | (_, "2") :: _ => negb (String.eqb id "color")
       | _ => true
       end)
    (fun _ => WS.Single "$5.00").

Definition t_shirt : string := "https://www.wsdisplay.com/t-shirt".

(** A shop: the home page links to the T-shirt and to the cart. *)
Definition shop_home : WS.Dom :=
  WS.mkDom WSRows.BASE_URL true false
    [t_shirt; "https://www.wsdisplay.com/cart"; "https://www.wsdisplay.com/#"]
    true "" "" [] (fun _ _ => true) (fun _ _ _ => true)
    (fun _ => WS.Single "N/A").

Definition shop_site (w : unit) (url : string) : unit * option WS.Dom :=
  if String.eqb url WSRows.BASE_URL then (w, Some shop_home)
  else if String.eqb url t_shirt then (w, Some size_color)
  else (w, None).

Definition login_ok (w : unit) : unit * bool := (w, true).
Definition no_sleep (seconds : nat) (w : unit) : unit := w.

(** A session that counts the login attempts and the seconds slept; the
    login succeeds from the [k]-th attempt on. *)
Definition login_at (k : nat) (w : nat * nat) : nat * nat * bool :=
  ((S (fst w), snd w), negb (S (fst w) <? k)).

Definition counting_sleep (seconds : nat) (w : nat * nat) : nat * nat :=
  (fst w, snd w + seconds).

End WSSites.

(** * Properties *)

(** ** Strings *)

Lemma before_idem (c : ascii) (s : string) :
  Py.before c (Py.before c s) = Py.before c s.
Proof.
  induction s as [|a s IH]; simpl; trivial.
  destruct (Ascii.eqb a c) eqn:E; simpl; trivial.
  now rewrite E, IH.
Qed.

Lemma before_app_sep (c : ascii) (p f : string) :
  Py.before c (p ++ String c f) = Py.before c p.
Proof.
  induction p as [|a p IH]; simpl.
  - now rewrite Ascii.eqb_refl.
  - destruct (Ascii.eqb a c); trivial. now rewrite IH.
Qed.

Lemma has_char_before (c : ascii) (s : string) :
  Py.has_char c (Py.before c s) = false.
Proof.
  induction s as [|a s IH]; simpl; trivial.
  destruct (Ascii.eqb a c) eqn:E; simpl; trivial.
  now rewrite E, IH.
Qed.

Lemma has_char_before_other (c c' : ascii) (s : string) :
  Py.has_char c s = false -> Py.has_char c (Py.before c' s) = false.
Proof.
  induction s as [|a s IH]; simpl; trivial.
  intros H. apply orb_false_iff in H as [Ha Hs].
  destruct (Ascii.eqb a c'); simpl; trivial.
  now rewrite Ha, IH.
Qed.

Lemma before_without (c : ascii) (s : string) :
  Py.has_char c s = false -> Py.before c s = s.
Proof.
  induction s as [|a s IH]; simpl; trivial.
  intros H. apply orb_false_iff in H as [Ha Hs].
  now rewrite Ha, IH.
Qed.

Lemma b2_clean_idem (u : string) : b2_clean (b2_clean u) = b2_clean u.
Proof.
  unfold b2_clean.
  rewrite (before_without "#" (Py.before "?" (Py.before "#" u))).
  - apply before_idem.
  - apply has_char_before_other, has_char_before.
Qed.

Lemma b2_strip_query_clean (u : string) :
  b2_strip_query (b2_clean u) = b2_clean u.
Proof. unfold b2_strip_query, b2_clean. apply before_idem. Qed.

Lemma sd_normalize_fragment (p f : string) :
  sd_normalize (p ++ "#" ++ f) = sd_normalize p.
Proof. unfold sd_normalize. simpl. apply before_app_sep. Qed.

Lemma b2_clean_fragment (p f : string) :
  b2_clean (p ++ "#" ++ f) = b2_clean p.
Proof. unfold b2_clean. simpl. now rewrite before_app_sep. Qed.

(** C9. URL normalization is idempotent, in the crawler that strips the
    fragment (sd) and in the one that strips fragment and query string (b2),
    and two hrefs that differ only by their fragment have the same canonical
    form, which is that of the href without fragment. The query strip done
    by b2 on dequeue leaves a canonical URL as it is. *)
Theorem normalize_idempotent :
  (forall u, sd_normalize (sd_normalize u) = sd_normalize u) /\
  (forall u, b2_clean (b2_clean u) = b2_clean u) /\
  (forall u, b2_strip_query (b2_clean u) = b2_clean u) /\
  (forall p f1 f2,
      sd_normalize (p ++ "#" ++ f1) = sd_normalize (p ++ "#" ++ f2)) /\
  (forall p f1 f2, b2_clean (p ++ "#" ++ f1) = b2_clean (p ++ "#" ++ f2)) /\
  (forall p f, sd_normalize (p ++ "#" ++ f) = sd_normalize p) /\
  (forall p f, b2_clean (p ++ "#" ++ f) = b2_clean p).
Proof.
  repeat split; intros.
  - apply before_idem.
  - apply b2_clean_idem.
  - apply b2_strip_query_clean.
  - now rewrite !sd_normalize_fragment.
  - now rewrite !b2_clean_fragment.
  - apply sd_normalize_fragment.
  - apply b2_clean_fragment.
Qed.

(** ** Loops *)

Section Loop.

Variable S : Type.
Variable cond : S -> bool.
Variable body : S -> S.

Lemma while_loop_iterate (fuel : nat) (s s' : S) :
  Py.while_loop cond body fuel s = Some s' ->
  exists n, n <= fuel /\ s' = Py.iterate body n s /\ cond s' = false /\
            forall k, k < n -> cond (Py.iterate body k s) = true.
Proof.
  revert s. induction fuel as [|fuel IH]; intros s; simpl;
    destruct (cond s) eqn:C; try discriminate.
  - intros [= <-]. exists 0. repeat split; trivial; lia.
  - intros H. apply IH in H as (n & Hn & -> & Hc & Hk).
    exists (Datatypes.S n). repeat split; trivial; try lia.
    intros [|k] Hlt; simpl; trivial. apply Hk. lia.
  - intros [= <-]. exists 0. repeat split; trivial; lia.
Qed.

Lemma while_loop_more_fuel (fuel fuel' : nat) (s s' : S) :
  Py.while_loop cond body fuel s = Some s' -> fuel <= fuel' ->
  Py.while_loop cond body fuel' s = Some s'.
Proof.
  revert fuel' s. induction fuel as [|fuel IH]; intros fuel' s; simpl;
    destruct (cond s) eqn:C; try discriminate; intros H Hle.
  - destruct fuel'; simpl; now rewrite C.
  - destruct fuel' as [|fuel']; [lia|]. simpl. rewrite C.
    apply IH; trivial. lia.
  - destruct fuel'; simpl; now rewrite C.
Qed.

Lemma while_loop_deterministic (f1 f2 : nat) (s s1 s2 : S) :
  Py.while_loop cond body f1 s = Some s1 ->
  Py.while_loop cond body f2 s = Some s2 -> s1 = s2.
Proof.
  intros H1 H2.
  apply while_loop_more_fuel with (fuel' := f1 + f2) in H1; [|lia].
  apply while_loop_more_fuel with (fuel' := f1 + f2) in H2; [|lia].
  congruence.
Qed.

(** A property kept by every iteration holds when the loop ends. *)
Lemma while_loop_invariant (P : S -> Prop) (fuel : nat) (s s' : S) :
  (forall x, P x -> cond x = true -> P (body x)) ->
  P s -> Py.while_loop cond body fuel s = Some s' -> P s'.
Proof.
  intros Hstep. revert s. induction fuel as [|fuel IH]; intros s Hs; simpl;
    destruct (cond s) eqn:C; try discriminate.
  - now intros [= <-].
  - apply IH. now apply Hstep.
  - now intros [= <-].
Qed.

(** Termination by a lexicographic measure: every iteration lowers [m1], or
    keeps it and lowers [m2]. *)
Variables m1 m2 : S -> nat.
Hypothesis progress :
  forall s, cond s = true ->
    m1 (body s) < m1 s \/ (m1 (body s) = m1 s /\ m2 (body s) < m2 s).

Lemma while_loop_terminates (s : S) :
  exists fuel s', Py.while_loop cond body fuel s = Some s'.
Proof.
  remember (m1 s) as a eqn:Ha. revert s Ha.
  induction a as [a IHa] using lt_wf_ind. intros s Ha.
  remember (m2 s) as b eqn:Hb. revert s Ha Hb.
  induction b as [b IHb] using lt_wf_ind. intros s Ha Hb.
  destruct (cond s) eqn:C.
  - destruct (progress C) as [Hlt | [Heq Hlt]].
    + assert (Hm : m1 (body s) < a) by lia.
      destruct (IHa _ Hm (body s) eq_refl) as (fuel & s' & H).
      exists (Datatypes.S fuel), s'. simpl. now rewrite C.
    + assert (Hm : m2 (body s) < b) by lia.
      assert (Hk : a = m1 (body s)) by congruence.
      destruct (IHb _ Hm (body s) Hk eq_refl) as (fuel & s' & H).
      exists (Datatypes.S fuel), s'. simpl. now rewrite C.
  - exists 0, s. simpl. now rewrite C.
Qed.

End Loop.

(** ** Sets kept as lists *)

Lemma mem_In (x : string) (l : list string) : Py.mem x l = true <-> In x l.
Proof.
  unfold Py.mem. rewrite existsb_exists. split.
  - intros (y & Hy & E). apply String.eqb_eq in E. now subst.
  - intros H. exists x. split; trivial. apply String.eqb_refl.
Qed.

Lemma mem_set_add_same (x : string) (l : list string) :
  Py.mem x (Py.set_add x l) = true.
Proof.
  unfold Py.set_add. destruct (Py.mem x l) eqn:E; trivial.
  apply mem_In, in_or_app. right. now left.
Qed.

Lemma mem_set_add_mono (x y : string) (l : list string) :
  Py.mem x l = true -> Py.mem x (Py.set_add y l) = true.
Proof.
  unfold Py.set_add. destruct (Py.mem y l); trivial.
  rewrite !mem_In. intros H. apply in_or_app. now left.
Qed.

Lemma set_add_length_new (x : string) (l : list string) :
  Py.mem x l = false -> length (Py.set_add x l) = S (length l).
Proof.
  unfold Py.set_add. intros ->. rewrite length_app. simpl. lia.
Qed.

Lemma set_add_length (x : string) (l : list string) :
  length (Py.set_add x l) = length l \/
  length (Py.set_add x l) = S (length l).
Proof.
  destruct (Py.mem x l) eqn:E.
  - left. unfold Py.set_add. now rewrite E.
  - right. now apply set_add_length_new.
Qed.

(** ** The crawl loop in general *)

Section CrawlLoop.

Variable W : Type.
Variable max_pages : nat.
Variable body : Crawl W -> Crawl W.

Hypothesis body_advances :
  forall st, crawl_cond max_pages st = true -> advances st (body st).

Lemma crawl_cond_true (st : Crawl W) :
  crawl_cond max_pages st = true ->
  to_visit st <> [] /\ length (visited st) < max_pages.
Proof.
  unfold crawl_cond. destruct (to_visit st); [discriminate|].
  intros H. apply Nat.ltb_lt in H. split; [discriminate | trivial].
Qed.

Lemma crawl_cond_false (st : Crawl W) :
  crawl_cond max_pages st = false ->
  to_visit st = [] \/ max_pages <= length (visited st).
Proof.
  unfold crawl_cond. destruct (to_visit st); [now left|].
  intros H. apply Nat.ltb_ge in H. now right.
Qed.

Lemma crawl_loop_terminates (st0 : Crawl W) :
  exists fuel st, Py.while_loop (crawl_cond max_pages) body fuel st0 = Some st.
Proof.
  apply while_loop_terminates
    with (m1 := fun st => max_pages - length (visited st))
         (m2 := fun st => length (to_visit st)).
  intros st C. pose proof (body_advances _ C) as H.
  apply crawl_cond_true in C as [_ C].
  destruct H as [H | [H1 H2]]; [left | right]; lia.
Qed.

Lemma crawl_loop_bounded (fuel : nat) (st0 st : Crawl W) :
  length (visited st0) <= max_pages ->
  Py.while_loop (crawl_cond max_pages) body fuel st0 = Some st ->
  length (visited st) <= max_pages.
Proof.
  intros H0. apply while_loop_invariant with
    (P := fun st => length (visited st) <= max_pages); trivial.
  intros x _ C. pose proof (body_advances _ C) as H.
  apply crawl_cond_true in C as [_ C].
  destruct H as [H | [H1 H2]]; lia.
Qed.

(** The crawl from a state within the ceiling ends; it has run the body
    while the queue was not empty and the ceiling not reached, and ends in
    the first state where the queue is empty or [visited] has [max_pages]
    members. *)
Lemma crawl_loop_total (st0 : Crawl W) :
  length (visited st0) <= max_pages ->
  exists fuel st n,
    Py.while_loop (crawl_cond max_pages) body fuel st0 = Some st /\
    length (visited st) <= max_pages /\
    (to_visit st = [] \/ length (visited st) = max_pages) /\
    st = Py.iterate body n st0 /\
    forall k, k < n ->
      to_visit (Py.iterate body k st0) <> [] /\
      length (visited (Py.iterate body k st0)) < max_pages.
Proof.
  intros H0. destruct (crawl_loop_terminates st0) as (fuel & st & H).
  assert (Hb : length (visited st) <= max_pages)
    by (eapply crawl_loop_bounded; eassumption).
  apply while_loop_iterate in H as H'. destruct H' as (n & _ & Hn & Hc & Hk).
  exists fuel, st, n. repeat split; trivial.
  - apply crawl_cond_false in Hc as [Hc | Hc]; [now left | right; lia].
  - now apply crawl_cond_true, Hk.
  - now apply crawl_cond_true, Hk.
Qed.

End CrawlLoop.

(** Each of the three loop bodies advances. *)

Lemma sd_crawl_advances (W : Type) (get : W -> string -> W * option SD.Dom)
    (netloc : string -> string) (base_url : string) (already : list string)
    (max_pages : nat) (st : Crawl W) :
  crawl_cond max_pages st = true ->
  advances st (SD.crawl_body get netloc base_url already st).
Proof.
  intros C. apply crawl_cond_true in C as [Hq _].
  unfold SD.crawl_body. destruct (to_visit st) as [|u rest] eqn:Q; [easy|].
  destruct (Py.mem u (visited st)) eqn:V; simpl.
  { right. simpl. rewrite Q. simpl. lia. }
  destruct (Py.mem u already); simpl.
  { right. simpl. rewrite Q. simpl. lia. }
  pose proof (set_add_length_new _ _ V) as L.
  destruct (SD.matches_pattern u). { left. simpl. trivial. }
  destruct (SD.is_download u). { left. simpl. trivial. }
  destruct (get (world st) u) as [w [dom|]].
  - left. simpl. trivial.
  - right. simpl. rewrite Q. simpl. lia.
Qed.


Lemma b2_crawl_advances (W : Type) (get : W -> string -> W * option B2.Dom)
    (sleep : nat -> W -> W) (netloc : string -> string) (base_url : string)
    (already : list string) (max_pages : nat) (st : Crawl W) :
  crawl_cond max_pages st = true ->
  advances st (B2.crawl_body get sleep netloc base_url already st).
Proof.
  intros C. apply crawl_cond_true in C as [Hq _].
  unfold B2.crawl_body. destruct (to_visit st) as [|raw rest] eqn:Q; [easy|].
  set (u := b2_strip_query raw).
  destruct (Py.mem u (visited st)) eqn:V; simpl.
  { right. simpl. unfold Py.set_add. rewrite V, Q. simpl. lia. }
  pose proof (set_add_length_new _ _ V) as L.
  destruct (Py.mem u already || B2.has_skipped_ext u || B2.is_excluded u).
  { left. simpl. trivial. }
  destruct (B2.load_page_with_retry get sleep (world st) u) as [w [dom|]];
    left; simpl; trivial.
Qed.


(** ** What the crawlers fetch *)

Lemma NoDup_snoc (A : Type) (l : list A) (x : A) :
  NoDup l -> ~ In x l -> NoDup (l ++ [x]).
Proof.
  intros Hl Hx. induction Hl as [|y l Hy Hl IH]; simpl.
  - constructor; [easy | constructor].
  - constructor.
    + rewrite in_app_iff. intros [H | [H | []]]; [easy|].
      apply Hx. now left.
    + apply IH. intros H. apply Hx. now right.
Qed.

Section SdFetches.

Variable W : Type.
Variable get : W -> string -> W * option SD.Dom.
Variable netloc : string -> string.
Variable base_url : string.
Variable known : list string.

Lemma sd_new_links_normal (domain : string) (vis : list string)
    (hrefs : list string) (u : string) :
  In u (SD.new_links netloc domain vis known hrefs) -> sd_normalize u = u.
Proof.
  unfold SD.new_links. rewrite in_flat_map. intros (href & _ & H).
  destruct (negb (Py.truthy href)); [easy|].
  destruct (SD.matches_pattern href); [easy|].
  destruct (SD.is_download href); [easy|].
  destruct (String.eqb (netloc href) domain); [|easy].
  destruct (Py.mem (sd_normalize href) vis || Py.mem (sd_normalize href) known);
    [easy|].
  destruct H as [<- | []]. apply before_idem.
Qed.

Lemma sd_inv_step (st : Crawl W) :
  sd_inv base_url st -> sd_inv base_url (SD.crawl_body get netloc base_url known st).
Proof.
  intros Hst. pose proof Hst as [Hq Hc]. unfold SD.crawl_body.
  destruct (to_visit st) as [|u rest] eqn:Q; [exact Hst|].
  assert (Hrest : forall x, In x rest -> x = base_url \/ sd_normalize x = x)
    by (intros x Hx; apply Hq; now right).
  assert (Hu : u = base_url \/ sd_normalize u = u) by (apply Hq; now left).
  destruct (Py.mem u (visited st) || Py.mem u known); [now split|].
  destruct (SD.matches_pattern u) eqn:Ep; [now split|].
  destruct (SD.is_download u) eqn:Ed; [now split|].
  assert (Hc' : forall x, In x (checked st ++ [u]) ->
            SD.matches_pattern x = false /\ SD.is_download x = false /\
            (x = base_url \/ sd_normalize x = x)).
  { intros x Hx. apply in_app_iff in Hx as [Hx | [<- | []]]; auto. }
  destruct (get (world st) u) as [w [dom|]]; split; simpl; trivial.
  intros x Hx. apply in_app_iff in Hx as [Hx | Hx]; auto.
  right. eapply sd_new_links_normal; eassumption.
Qed.

Lemma sd_crawl_inv (fuel : nat) (w : W) (max_pages : nat) (st : Crawl W) :
  SD.crawl_site get netloc fuel w base_url known max_pages = Some st ->
  sd_inv base_url st.
Proof.
  unfold SD.crawl_site. apply while_loop_invariant.
  - intros x Hx _. now apply sd_inv_step.
  - split; simpl; [|easy]. intros u [<- | []]. now left.
Qed.

End SdFetches.

Section B2Fetches.

Variable W : Type.
Variable get : W -> string -> W * option B2.Dom.
Variable sleep : nat -> W -> W.
Variable netloc : string -> string.
Variable base_url : string.
Variable known : list string.

Lemma b2_new_links_clean (domain : string) (vis : list string)
    (hrefs : list string) (u : string) :
  In u (B2.new_links netloc domain vis known hrefs) -> b2_clean u = u.
Proof.
  unfold B2.new_links. rewrite in_flat_map. intros (href & _ & H).
  destruct (String.eqb (netloc href) domain); [|easy].
  destruct (Py.mem (b2_clean href) vis || Py.mem (b2_clean href) known);
    [easy|].
  destruct H as [<- | []]. apply b2_clean_idem.
Qed.

Lemma b2_inv_step (st : Crawl W) :
  b2_inv base_url known st ->
  b2_inv base_url known (B2.crawl_body get sleep netloc base_url known st).
Proof.
  intros Hst. pose proof Hst as (Hq & Hn & Hc). unfold B2.crawl_body.
  destruct (to_visit st) as [|raw rest] eqn:Q; [exact Hst|].
  assert (Hrest : forall x, In x rest -> x = base_url \/ b2_clean x = x)
    by (intros x Hx; apply Hq; now right).
  set (u := b2_strip_query raw).
  assert (Hvis : forall x, In x (checked st) ->
            Py.mem x (Py.set_add u (visited st)) = true /\
            Py.mem x known = false /\
            B2.is_excluded x = false /\ B2.has_skipped_ext x = false /\
            b2_strip_query x = x /\
            (x = b2_strip_query base_url \/ b2_clean x = x)).
  { intros x Hx. destruct (Hc x Hx) as (H1 & H2). split; trivial.
    now apply mem_set_add_mono. }
  destruct (Py.mem u (visited st) || Py.mem u known
            || B2.has_skipped_ext u || B2.is_excluded u) eqn:E.
  { split; [exact Hrest | split; [exact Hn | exact Hvis]]. }
  apply orb_false_iff in E as [E Eex]. apply orb_false_iff in E as [E Eext].
  apply orb_false_iff in E as [Ev Ek].
  assert (Hu : u = b2_strip_query base_url \/ b2_clean u = u).
  { destruct (Hq raw) as [-> | Hr]; [now left | now left |].
    right. unfold u. rewrite <- Hr. now rewrite b2_strip_query_clean, b2_clean_idem. }
  assert (Hnew : ~ In u (checked st)).
  { intros Hin. destruct (Hc u Hin) as [Hm _]. congruence. }
  assert (Hc' : forall x, In x (checked st ++ [u]) ->
            Py.mem x (Py.set_add u (visited st)) = true /\
            Py.mem x known = false /\
            B2.is_excluded x = false /\ B2.has_skipped_ext x = false /\
            b2_strip_query x = x /\
            (x = b2_strip_query base_url \/ b2_clean x = x)).
  { intros x Hx. apply in_app_iff in Hx as [Hx | [<- | []]]; auto.
    repeat split; trivial.
    - apply mem_set_add_same.
    - apply before_idem. }
  destruct (B2.load_page_with_retry get sleep (world st) u) as [w [dom|]];
    (split; [simpl | split; [now apply NoDup_snoc | exact Hc']]); trivial.
  intros x Hx. apply in_app_iff in Hx as [Hx | Hx]; auto.
  right. eapply b2_new_links_clean; eassumption.
Qed.

Lemma b2_crawl_inv (fuel : nat) (w : W) (max_pages : nat) (st : Crawl W) :
  B2.crawl_site get sleep netloc fuel w base_url known max_pages = Some st ->
  b2_inv base_url known st.
Proof.
  unfold B2.crawl_site. apply while_loop_invariant.
  - intros x Hx _. now apply b2_inv_step.
  - repeat split; simpl; try easy; [|constructor].
    intros u [<- | []]. now left.
Qed.

End B2Fetches.

Lemma startswith_app (p s t : string) :
  Py.startswith p s = true -> Py.startswith p (s ++ t) = true.
Proof.
  revert s. induction p as [|a p IH]; intros [|b s]; simpl; trivial;
    try discriminate.
  intros H. apply andb_true_iff in H as [-> H]. simpl. now apply IH.
Qed.

Lemma contains_app (p s t : string) :
  Py.contains p s = true -> Py.contains p (s ++ t) = true.
Proof.
  induction s as [|a s IH].
  - simpl. rewrite orb_false_r. intros H.
    apply (startswith_app _ _ t) in H. simpl in H.
    destruct t; simpl; rewrite H; trivial.
  - simpl. intros H. apply orb_true_iff in H as [H | H].
    + apply (startswith_app _ _ t) in H. simpl in H. now rewrite H.
    + rewrite (IH H). apply orb_true_r.
Qed.

Lemma existsb_contains_app (patterns : list string) (s t : string) :
  existsb (fun p => Py.contains p s) patterns = true ->
  existsb (fun p => Py.contains p (s ++ t)) patterns = true.
Proof.
  rewrite !existsb_exists. intros (p & Hp & H). exists p. split; trivial.
  now apply contains_app.
Qed.

Lemma has_char_app_sep (c : ascii) (e q : string) :
  Py.has_char c (e ++ String c q) = true.
Proof.
  induction e as [|a e IH]; simpl.
  - now rewrite Ascii.eqb_refl.
  - rewrite IH. apply orb_true_r.
Qed.

Lemma b2_fragment_not_clean (e q : string) :
  b2_clean (e ++ "#" ++ q) <> (e ++ "#" ++ q)%string.
Proof.
  intros H.
  assert (F : Py.has_char "#" (b2_clean (e ++ "#" ++ q)) = false)
    by apply has_char_before_other, has_char_before.
  rewrite H in F. simpl in F. now rewrite has_char_app_sep in F.
Qed.

Lemma sd_fragment_not_normal (e q : string) :
  sd_normalize (e ++ "#" ++ q) <> (e ++ "#" ++ q)%string.
Proof.
  intros H.
  assert (F : Py.has_char "#" (sd_normalize (e ++ "#" ++ q)) = false)
    by apply has_char_before.
  rewrite H in F. simpl in F. now rewrite has_char_app_sep in F.
Qed.

Lemma b2_query_not_stripped (e q : string) :
  b2_strip_query (e ++ "?" ++ q) <> (e ++ "?" ++ q)%string.
Proof.
  intros H.
  assert (F : Py.has_char "?" (b2_strip_query (e ++ "?" ++ q)) = false)
    by apply has_char_before.
  rewrite H in F. simpl in F. now rewrite has_char_app_sep in F.
Qed.

(** In b2_scrape.py every URL is loaded at most once in a crawl, also when
    the load fails: the failure branch puts the URL in [visited]. *)
Lemma b2_fetches_once (W : Type) (get : W -> string -> W * option B2.Dom)
    (sleep : nat -> W -> W) (netloc : string -> string) (fuel : nat) (w : W)
    (base_url : string) (known : list string) (max_pages : nat)
    (st : Crawl W) :
  B2.crawl_site get sleep netloc fuel w base_url known max_pages = Some st ->
  NoDup (checked st) /\
  forall u, In u (checked st) -> In u (visited st) /\ ~ In u known.
Proof.
  intros H. apply b2_crawl_inv in H as (_ & Hn & Hc). split; trivial.
  intros u Hu. destruct (Hc u Hu) as (Hv & Hk & _). split.
  - now apply mem_In.
  - rewrite <- mem_In. congruence.
Qed.

(** C5, evaluated on a site whose home page links twice to a page that
    fails to load: the crawl of sd_scrape.py tries that page twice, because
    the branch taken when [driver.get] raises leaves the URL out of
    [visited]. *)
Theorem sd_failed_load_fetched_twice :
  option_map (@checked unit)
    (SD.crawl_site Sites.sd_flaky_site simple_netloc 10 tt Sites.sd_base []
       5000)
  = Some [Sites.sd_base; Sites.sd_flaky; Sites.sd_flaky] /\
  option_map (@visited unit)
    (SD.crawl_site Sites.sd_flaky_site simple_netloc 10 tt Sites.sd_base []
       5000)
  = Some [Sites.sd_base].
Proof. split; vm_compute; reflexivity. Qed.

(** C6, counterexample: in sd_scrape.py a query string lets a download URL
    through. [brochure.pdf] is on the extension denylist, the home page
    links to [brochure.pdf?v=2], and the crawl loads that URL. *)
Lemma sd_query_string_bypasses_extension_denylist :
  SD.is_download Sites.sd_brochure = true /\
  Sites.sd_brochure_v2 = (Sites.sd_brochure ++ "?" ++ "v=2")%string /\
  option_map (@checked unit)
    (SD.crawl_site Sites.sd_brochure_site simple_netloc 10 tt Sites.sd_base
       [] 5000)
  = Some [Sites.sd_base; Sites.sd_brochure_v2].
Proof. repeat split; vm_compute; reflexivity. Qed.

(** C6, amended. Each crawler applies both denylists to the URL as it
    leaves the queue, which for a link is its canonical form (sd: fragment
    stripped, query string kept; b2: fragment and query string stripped),
    and a URL that matches one of them is never loaded. Hence an excluded
    URL is not loaded, nor is it with a fragment added unless that is the
    seed itself; in b2 no URL with a query string is loaded at all; in sd
    adding a query string to a URL on the substring denylist leaves it
    excluded. *)
Theorem exclusion_on_dequeued_form :
  forall (W : Type) (netloc : string -> string) (w : W) (base_url : string)
         (known : list string) (max_pages : nat),
    (forall get : W -> string -> W * option SD.Dom,
      exists fuel st,
        SD.crawl_site get netloc fuel w base_url known max_pages = Some st /\
        (forall u, In u (checked st) ->
           SD.matches_pattern u = false /\ SD.is_download u = false) /\
        (forall e q,
           SD.matches_pattern e = true \/ SD.is_download e = true ->
           ~ In e (checked st) /\
           (In (e ++ "#" ++ q)%string (checked st) ->
            (e ++ "#" ++ q)%string = base_url) /\
           (SD.matches_pattern e = true ->
            ~ In (e ++ "?" ++ q)%string (checked st)))) /\
    (forall (get : W -> string -> W * option B2.Dom) (sleep : nat -> W -> W),
      exists fuel st,
        B2.crawl_site get sleep netloc fuel w base_url known max_pages
        = Some st /\
        (forall u, In u (checked st) ->
           B2.is_excluded u = false /\ B2.has_skipped_ext u = false /\
           b2_strip_query u = u) /\
        (forall e q,
           B2.is_excluded e = true \/ B2.has_skipped_ext e = true ->
           ~ In e (checked st) /\
           ~ In (e ++ "?" ++ q)%string (checked st) /\
           (In (e ++ "#" ++ q)%string (checked st) ->
            (e ++ "#" ++ q)%string = b2_strip_query base_url))).
Proof.
  intros W netloc w base_url known max_pages. split.
  - intros get.
    destruct (@crawl_loop_terminates W max_pages
                (SD.crawl_body get netloc base_url known)
                (fun st => @sd_crawl_advances W get netloc base_url known
                             max_pages st)
                (mkCrawl [] [] [base_url] [] w)) as (fuel & st & H).
    exists fuel, st. split; [exact H|].
    apply sd_crawl_inv in H as [_ Hc]. split.
    + intros u Hu. destruct (Hc u Hu) as (H1 & H2 & _). now split.
    + intros e q He. repeat split.
      * intros Hin. destruct (Hc e Hin) as (H1 & H2 & _).
        destruct He; congruence.
      * intros Hin. destruct (Hc _ Hin) as (_ & _ & [H | H]); trivial.
        now apply sd_fragment_not_normal in H.
      * intros Hp Hin. destruct (Hc _ Hin) as (H1 & _).
        unfold SD.matches_pattern in *.
        apply existsb_contains_app with (t := ("?" ++ q)%string) in Hp.
        congruence.
  - intros get sleep.
    destruct (@crawl_loop_terminates W max_pages
                (B2.crawl_body get sleep netloc base_url known)
                (fun st => @b2_crawl_advances W get sleep netloc base_url
                             known max_pages st)
                (mkCrawl [] [] [base_url] [] w)) as (fuel & st & H).
    exists fuel, st. split; [exact H|].
    apply b2_crawl_inv in H as (_ & _ & Hc). split.
    + intros u Hu. destruct (Hc u Hu) as (_ & _ & H1 & H2 & H3 & _).
      now repeat split.
    + intros e q He. repeat split.
      * intros Hin. destruct (Hc e Hin) as (_ & _ & H1 & H2 & _).
        destruct He; congruence.
      * intros Hin. destruct (Hc _ Hin) as (_ & _ & _ & _ & H3 & _).
        now apply b2_query_not_stripped in H3.
      * intros Hin.
        destruct (Hc _ Hin) as (_ & _ & _ & _ & _ & [H | H]); trivial.
        now apply b2_fragment_not_clean in H.
Qed.

(** ** The attribute cross-product *)

Lemma flat_map_length_const (A B : Type) (f : A -> list B) (m : nat)
    (l : list A) :
  (forall x, length (f x) = m) -> length (flat_map f l) = length l * m.
Proof.
  intros Hf. induction l as [|x l IH]; simpl; trivial.
  rewrite length_app, Hf, IH. lia.
Qed.


Lemma mem_set_add_other (x y : string) (l : list string) :
  x <> y -> Py.mem x l = false -> Py.mem x (Py.set_add y l) = false.
Proof.
  intros Hxy Hx. unfold Py.set_add. destruct (Py.mem y l); trivial.
  unfold Py.mem in *. rewrite existsb_app, Hx. simpl.
  rewrite orb_false_r. now apply String.eqb_neq.
Qed.

Section B2Combos.

Variable d : B2.Dom.
Variables name url img : string.
Variable keys : list string.

(** The rows of a page only grow, by at most one row per combination. *)
Lemma b2_scrape_combos_grows (combos : list (list string)) :
  forall seen chosen rows rows',
    B2.scrape_combos d name url img keys combos seen chosen rows = B2.Ok rows' ->
    exists more, rows' = rows ++ more /\ length more <= length combos.
Proof.
  induction combos as [|combo rest IH]; simpl; intros seen chosen rows rows'.
  - intros [= <-]. exists []. now rewrite app_nil_r.
  - destruct (Py.mem (B2.opt_str keys combo) seen).
    + intros H. apply IH in H as (more & -> & Hl). exists more. split; [easy | lia].
    + destruct (B2.parse_price_table d (B2.set_attributes d chosen keys combo));
        [|discriminate].
      intros H. apply IH in H as (more & -> & Hl).
      rewrite <- app_assoc. eexists. split; [reflexivity|]. simpl. lia.
Qed.

(** One row per combination when no two combinations are rendered as the
    same option string. *)
Lemma b2_scrape_combos_exact (combos : list (list string)) :
  forall seen chosen rows rows',
    NoDup (map (B2.opt_str keys) combos) ->
    (forall c, In c combos -> Py.mem (B2.opt_str keys c) seen = false) ->
    B2.scrape_combos d name url img keys combos seen chosen rows = B2.Ok rows' ->
    length rows' = length rows + length combos.
Proof.
  induction combos as [|combo rest IH]; simpl;
    intros seen chosen rows rows' Hnd Hseen.
  - intros [= <-]. lia.
  - rewrite (Hseen combo) by now left.
    destruct (B2.parse_price_table d (B2.set_attributes d chosen keys combo));
      [|discriminate].
    inversion Hnd as [|? ? Hnot Hnd']; subst.
    intros H. apply IH in H; trivial.
    + rewrite H, length_app. simpl. lia.
    + intros c Hc. apply mem_set_add_other.
      * intros E. apply Hnot. rewrite <- E. now apply in_map.
      * apply Hseen. now right.
Qed.

(** Every combination is represented among the rows added for the page,
    whatever its selections did: by the row recorded for it, or by the row
    of an earlier combination with the same option string. *)
Lemma b2_scrape_combos_covers (combos : list (list string)) :
  forall seen chosen rows rows',
    B2.scrape_combos d name url img keys combos seen chosen rows = B2.Ok rows' ->
    exists more,
      rows' = rows ++ more /\
      forall c, In c combos ->
        Py.mem (B2.opt_str keys c) seen = true \/
        In (B2.opt_str keys c) (map B2.row_options more).
Proof.
  induction combos as [|combo rest IH]; simpl; intros seen chosen rows rows'.
  - intros [= <-]. exists []. split; [now rewrite app_nil_r | easy].
  - destruct (Py.mem (B2.opt_str keys combo) seen) eqn:E.
    + intros H. apply IH in H as (more & -> & Hc). exists more.
      split; trivial. intros c [<- | Hin]; auto.
    + destruct (B2.parse_price_table d (B2.set_attributes d chosen keys combo))
        as [price|]; [|discriminate].
      intros H. apply IH in H as (more & -> & Hc).
      rewrite <- app_assoc. eexists. split; [reflexivity|].
      intros c [<- | Hin]; [right; now left|].
      destruct (Hc c Hin) as [Hs | Hs]; [|right; now right].
      destruct (String.eqb (B2.opt_str keys c) (B2.opt_str keys combo)) eqn:Es.
      * apply String.eqb_eq in Es. right. left. simpl. now symmetry.
      * left. apply mem_In in Hs. apply mem_In.
        unfold Py.set_add in Hs. rewrite E in Hs.
        apply in_app_iff in Hs as [Hs | [Hs | []]]; trivial.
        rewrite Hs, String.eqb_refl in Es. discriminate.
Qed.

End B2Combos.

Section WsCombos.

Variable d : WS.Dom.
Variable details : string * string * string.



(** When every dropdown is found again and every option can be selected,
    every combination is applied in full. *)
Hypothesis all_selectable :
  forall sel id val,
    WS.dropdown_found d sel id = true /\
    WS.option_selectable d sel id val = true.



End WsCombos.


(** The rows one page adds in b2_scrape.py. *)
Lemma b2_scrape_page_rows (url : string) (d : B2.Dom)
    (rows rows' : list B2.Row) :
  B2.scrape_page url d rows = B2.Ok (B2.Rows rows') ->
  let attrs := B2.get_attribute_options d in
  let combos := Py.itertools_product (map snd attrs) in
  exists more,
    rows' = rows ++ more /\
    length more <= length combos /\
    (NoDup (map (B2.opt_str (map fst attrs)) combos) ->
     length more = length combos) /\
    (attrs = [] -> length more = 1) /\
    (forall c, In c combos ->
       In (B2.opt_str (map fst attrs) c) (map B2.row_options more)).
Proof.
  unfold B2.scrape_page.
  destruct (B2.mui_input d); [discriminate|].
  destruct (B2.extract_product_name d) as [name|]; [|discriminate].
  destruct (B2.extract_product_image d) as [img|]; [|discriminate].
  destruct (B2.get_attribute_options d) as [|a attrs] eqn:E.
  - destruct (B2.parse_price_table d []) as [price|]; [|discriminate].
    intros [= <-]. simpl. eexists. split; [reflexivity|]. simpl.
    repeat split; trivial. intros c [<- | []]. now left.
  - destruct (B2.scrape_combos _ _ _ _ _ _ _ _ _) as [out|] eqn:H;
      [|discriminate].
    intros [= <-]. cbv zeta.
    destruct (b2_scrape_combos_covers _ _ _ _ _ _ _ _ _ H) as (more & -> & Hc).
    exists more. split; trivial.
    destruct (b2_scrape_combos_grows _ _ _ _ _ _ _ _ _ H) as (more' & Hm & Hl).
    apply app_inv_head in Hm. subst more'.
    repeat split; trivial.
    + intros Hnd. apply b2_scrape_combos_exact in H; trivial.
      rewrite length_app in H. lia.
    + discriminate.
    + intros c Hin. destruct (Hc c Hin) as [Hs | Hs]; [discriminate | trivial].
Qed.




(** ** Selection failures *)




(** ** Prices *)

(** "$1,234.50" is read as 1234.50. *)
Lemma b2_parse_price_with_separators :
  exists q,
    B2.parse_price_table (B2Sites.plain_product "$1,234.50") []
    = B2.Ok (Some q) /\ (q == 12345 # 10)%Q.
Proof. eexists. split; [vm_compute; reflexivity | reflexivity]. Qed.

(** A text without "$", such as "TBD", gives [None], and the row is recorded
    with an empty price. *)
Lemma b2_parse_price_tbd :
  B2.parse_price_table (B2Sites.plain_product "TBD") [] = B2.Ok None /\
  map B2.row_price
    (B2.emitted (B2.scrape_page B2Sites.banner (B2Sites.plain_product "TBD") []))
  = [B2.EmptyPrice].
Proof. split; vm_compute; reflexivity. Qed.

(** C4, evaluated on a known product page whose subtotal shows a price
    range: the digits and dots that are kept read "10.0020.00", [float]
    raises [ValueError], nothing catches it, and the run ends there, before
    any CSV is written. *)
Theorem b2_price_range_raises :
  B2.parse_price_table (B2Sites.plain_product "$10.00 - $20.00") []
  = B2.Raise B2.ValueError /\
  B2.scrape_page B2Sites.banner (B2Sites.plain_product "$10.00 - $20.00") []
  = B2.Raise B2.ValueError /\
  option_map (fun out => (snd out, B2.csv_file (fst out), B2.all_rows (fst out)))
    (B2.main (B2Sites.banner_site "$10.00 - $20.00") B2Sites.no_sleep
       B2Sites.login_ok simple_netloc 10 tt [B2Sites.banner])
  = Some (Some B2.ValueError, None, []).
Proof. repeat split; vm_compute; reflexivity. Qed.

Lemma Qeq_bool_zero (q : Q) : (q == 0)%Q -> Qeq_bool q 0 = true.
Proof. apply Qeq_bool_iff. Qed.

(** C10. When the price extractor parses a price equal to zero, the row is
    built with the empty price field, the same field as for a price that
    could not be read: in the loop over the combinations and on a page
    without attributes. *)
Theorem zero_price_recorded_as_empty :
  forall (d : B2.Dom) (chosen : B2.Chosen) (q : Q),
    B2.parse_price_table d chosen = B2.Ok (Some q) ->
    (q == 0)%Q ->
    B2.price_or_empty (Some q) = B2.EmptyPrice /\
    B2.price_or_empty (Some q) = B2.price_or_empty None /\
    (forall name url img keys combo rest seen prev rows,
        chosen = B2.set_attributes d prev keys combo ->
        Py.mem (B2.opt_str keys combo) seen = false ->
        B2.scrape_combos d name url img keys (combo :: rest) seen prev rows
        = B2.scrape_combos d name url img keys rest
            (Py.set_add (B2.opt_str keys combo) seen) chosen
            (rows ++ [B2.mkRow name url img (B2.opt_str keys combo)
                        B2.EmptyPrice])) /\
    (forall url rows name img,
        chosen = [] ->
        B2.mui_input d = false ->
        B2.extract_product_name d = B2.Ok name ->
        B2.extract_product_image d = B2.Ok img ->
        B2.get_attribute_options d = [] ->
        B2.scrape_page url d rows
        = B2.Ok (B2.Rows (rows ++ [B2.mkRow name url img "" B2.EmptyPrice]))).
Proof.
  intros d chosen q Hp Hq.
  assert (E : B2.price_or_empty (Some q) = B2.EmptyPrice)
    by (simpl; now rewrite Qeq_bool_zero).
  repeat split; trivial.
  - intros name url img keys combo rest seen prev rows -> Hs. simpl.
    now rewrite Hs, Hp, E.
  - intros url rows name img -> Hm Hn Hi Ha. unfold B2.scrape_page.
    now rewrite Hm, Hn, Hi, Ha, Hp, E.
Qed.

(** The subtotal "$0.00" on a page without attributes. *)
Lemma zero_price_recorded_as_empty_free_item :
  B2.scrape_page B2Sites.banner (B2Sites.plain_product "$0.00") []
  = B2.Ok (B2.Rows
      [B2.mkRow "Vinyl Banner" B2Sites.banner
         "https://www.b2sign.com/img/banner.jpg" "" B2.EmptyPrice]) /\
  B2.scrape_page B2Sites.banner (B2Sites.plain_product "$0.00") []
  = B2.scrape_page B2Sites.banner (B2Sites.plain_product "TBD") [].
Proof.
  assert (Hp : B2.parse_price_table (B2Sites.plain_product "$0.00") []
               = B2.Ok (Some (0 # 100)%Q)) by (vm_compute; reflexivity).
  assert (Hq : (0 # 100 == 0)%Q) by reflexivity.
  destruct (zero_price_recorded_as_empty _ _ Hp Hq) as (_ & _ & _ & Hpage).
  assert (E : B2.scrape_page B2Sites.banner (B2Sites.plain_product "$0.00") []
              = B2.Ok (B2.Rows
                  [B2.mkRow "Vinyl Banner" B2Sites.banner
                     "https://www.b2sign.com/img/banner.jpg" "" B2.EmptyPrice])).
  { apply (Hpage B2Sites.banner [] "Vinyl Banner"
             "https://www.b2sign.com/img/banner.jpg");
      vm_compute; reflexivity. }
  split; [exact E|]. rewrite E. vm_compute. reflexivity.
Defined.

(** ** Page loads *)

(** A page that never loads is tried [MAX_RETRIES] times, with
    [RETRY_DELAY] seconds between two attempts, and ends in [SystemExit]. *)
Lemma b2_load_gives_up_after_five_attempts (url : string) :
  B2.load_page_with_retry B2Sites.failing_get B2Sites.counting_sleep (0, 0) url
  = ((5, 20), B2.Exited).
Proof. reflexivity. Qed.

(** Inside the crawl the [SystemExit] of a page that never loads is caught:
    the URL joins [visited] and the loop goes on. *)
Lemma b2_crawl_skips_failed_load (W : Type)
    (get : W -> string -> W * option B2.Dom) (sleep : nat -> W -> W)
    (netloc : string -> string) (base_url : string) (known : list string)
    (st : Crawl W) (raw : string) (rest : list string) (w : W) :
  to_visit st = raw :: rest ->
  Py.mem (b2_strip_query raw) (visited st) = false ->
  Py.mem (b2_strip_query raw) known = false ->
  B2.has_skipped_ext (b2_strip_query raw) = false ->
  B2.is_excluded (b2_strip_query raw) = false ->
  B2.load_page_with_retry get sleep (world st) (b2_strip_query raw)
  = (w, B2.Exited) ->
  B2.crawl_body get sleep netloc base_url known st
  = mkCrawl (visited st ++ [b2_strip_query raw]) (product_urls st) rest
      (checked st ++ [b2_strip_query raw]) w.
Proof.
  intros Q Hv Hk He Hx Hl. unfold B2.crawl_body.
  rewrite Q, Hv, Hk, He, Hx, Hl. simpl. unfold Py.set_add. now rewrite Hv.
Qed.

(** C2, evaluated on a run whose known-URL file holds one URL that cannot
    be loaded: [load_page_with_retry] raises [SystemExit] after the fifth
    attempt, the loop of [main] over the known URLs does not catch it, and
    the run ends there: no row, no CSV, and the crawl is never started. *)
Theorem b2_main_aborts_on_unreachable_known_url :
  option_map (fun out => (snd out, B2.csv_file (fst out), B2.all_rows (fst out)))
    (B2.main B2Sites.unreachable_site B2Sites.no_sleep B2Sites.login_ok
       simple_netloc 10 tt [B2Sites.banner])
  = Some (Some B2.SystemExit, None, []).
Proof. vm_compute; reflexivity. Qed.

(** ** The known-URL file *)

(** C1, evaluated on a run of sd_scrape.py whose known-URL file holds one
    URL, of a page that loads but no longer shows a price table: the run
    completes and rewrites the file without that URL. *)
Theorem sd_known_url_dropped :
  SD.read_scraped_urls [Sites.sd_stand] = [Sites.sd_stand] /\
  SD.main Sites.sd_stand_site Sites.always_logged_in simple_netloc 10 tt
    Sites.sd_base [Sites.sd_stand]
  = Some (SD.mkOutcome [] (Some []) true).
Proof. split; vm_compute; reflexivity. Qed.


(** On the site that links to the brochure, the cart, which is on the
    substring denylist, is not loaded, with or without a query string. *)
Lemma exclusion_on_dequeued_form_cart :
  exists fuel st,
    SD.crawl_site Sites.sd_brochure_site simple_netloc fuel tt Sites.sd_base
      [] 5000 = Some st /\
    ~ In "https://www.showdowndisplays.com/Cart" (checked st) /\
    ~ In "https://www.showdowndisplays.com/Cart?item=3" (checked st).
Proof.
  destruct (@exclusion_on_dequeued_form unit simple_netloc tt Sites.sd_base
              [] 5000) as [Hsd _].
  destruct (Hsd Sites.sd_brochure_site) as (fuel & st & H & _ & Hex).
  exists fuel, st. split; [exact H|].
  assert (Hcart : SD.matches_pattern "https://www.showdowndisplays.com/Cart"
                  = true \/
                  SD.is_download "https://www.showdowndisplays.com/Cart" = true)
    by (left; vm_compute; reflexivity).
  destruct (Hex "https://www.showdowndisplays.com/Cart" "item=3" Hcart)
    as (H1 & _ & H3).
  split; [exact H1|]. apply H3. vm_compute. reflexivity.
Defined.

(** The two sibling scrapers only ever append to their known-URL file. *)

Lemma ws_update_known_urls_appends (file new_urls : list string) :
  exists more, WS.update_known_urls file new_urls = file ++ more.
Proof. now exists new_urls. Qed.

Section B2File.

Variable W : Type.
Variable get : W -> string -> W * option B2.Dom.
Variable sleep : nat -> W -> W.
Variable login_form : W -> W * bool.
Variable netloc : string -> string.

Lemma b2_scrape_existing_keeps_file (urls : list string) :
  forall r r' e,
    B2.scrape_existing get sleep urls r = (r', e) ->
    B2.scraped_file r' = B2.scraped_file r.
Proof.
  induction urls as [|url rest IH]; simpl; intros r r' e.
  - now intros [= <- _].
  - destruct (B2.load_page_with_retry get sleep (B2.session r) url)
      as [w [dom|]]; [|now intros [= <- _]].
    destruct (B2.scrape_page url dom (B2.all_rows r)) as [[|rows]|ex].
    + intros H. now apply IH in H.
    + intros H. now apply IH in H.
    + now intros [= <- _].
Qed.

Lemma b2_scrape_new_appends (urls : list string) :
  forall r r' e,
    B2.scrape_new get sleep urls r = (r', e) ->
    exists more, B2.scraped_file r' = B2.scraped_file r ++ more.
Proof.
  induction urls as [|url rest IH]; simpl; intros r r' e.
  - intros [= <- _]. exists []. now rewrite app_nil_r.
  - destruct (B2.load_page_with_retry get sleep (B2.session r) url)
      as [w [dom|]].
    2: { intros [= <- _]. exists []. now rewrite app_nil_r. }
    destruct (B2.scrape_page url dom (B2.all_rows r)) as [[|rows]|ex].
    + intros H. now apply IH in H.
    + intros H. apply IH in H as (more & ->). cbn [B2.scraped_file].
      match goal with |- context [if ?c then _ else _] => destruct c end.
      * rewrite <- app_assoc. eexists. reflexivity.
      * now exists more.
    + intros [= <- _]. exists []. now rewrite app_nil_r.
Qed.

(** Whatever happens in a run of b2_scrape.py, completed or not, the
    known-URL file it leaves starts with the file it found. *)
Lemma b2_main_appends (fuel : nat) (w : W) (file : list string)
    (r : B2.Run W) (e : option B2.Exn) :
  B2.main get sleep login_form netloc fuel w file = Some (r, e) ->
  exists more, B2.scraped_file r = file ++ more.
Proof.
  unfold B2.main.
  destruct (B2.load_page_with_retry get sleep w B2.BASE_URL) as [w0 [home|]].
  2: { intros [= <- _]. exists []. now rewrite app_nil_r. }
  destruct (login_form w0) as [w1 [|]].
  2: { intros [= <- _]. exists []. now rewrite app_nil_r. }
  destruct (B2.scrape_existing get sleep file _) as [r1 e1] eqn:E1.
  apply b2_scrape_existing_keeps_file in E1. simpl in E1.
  destruct e1 as [ex|].
  { intros [= <- _]. exists []. now rewrite app_nil_r. }
  destruct (B2.crawl_site get sleep netloc fuel (B2.session r1) B2.BASE_URL
              (B2.processed r1) 5000) as [st|]; [|discriminate].
  destruct (B2.scrape_new get sleep (product_urls st) _) as [r3 e3] eqn:E3.
  apply b2_scrape_new_appends in E3 as (more & E3). simpl in E3.
  rewrite E1 in E3.
  destruct e3 as [ex|].
  - intros [= <- _]. now exists more.
  - intros [= <- _]. simpl. rewrite E3, <- app_assoc. eexists. reflexivity.
Qed.

End B2File.

(** In sd_scrape.py the filter applied when a link is found reads the href
    before its fragment is stripped: a link to a page that is not excluded
    is dropped when its fragment ends like a download. *)
Lemma sd_link_filter_reads_the_fragment :
  SD.is_download (sd_normalize "https://www.showdowndisplays.com/help#faq.pdf")
  = false /\
  SD.new_links simple_netloc "www.showdowndisplays.com" [] []
    ["https://www.showdowndisplays.com/help#faq.pdf"] = [] /\
  SD.new_links simple_netloc "www.showdowndisplays.com" [] []
    ["https://www.showdowndisplays.com/help#faq"]
  = ["https://www.showdowndisplays.com/help"].
Proof. repeat split; vm_compute; reflexivity. Qed.

(** * Further properties of the crawls *)

Lemma NoDup_set_add (x : string) (l : list string) :
  NoDup l -> NoDup (Py.set_add x l).
Proof.
  intros H. unfold Py.set_add. destruct (Py.mem x l) eqn:E; trivial.
  apply NoDup_snoc; trivial. rewrite <- mem_In. congruence.
Qed.

Lemma In_set_add (x y : string) (l : list string) :
  In x (Py.set_add y l) <-> x = y \/ In x l.
Proof.
  unfold Py.set_add. destruct (Py.mem y l) eqn:E.
  - split; [now right|]. intros [-> | H]; trivial. now apply mem_In.
  - rewrite in_app_iff. simpl. intuition.
Qed.

Lemma In_set_of (x : string) (l : list string) :
  In x (Py.set_of l) <-> In x l.
Proof.
  unfold Py.set_of.
  assert (G : forall acc,
             In x (fold_left (fun a y => Py.set_add y a) l acc)
             <-> In x acc \/ In x l).
  { induction l as [|y l IH]; intros acc; simpl; [intuition|].
    rewrite IH, In_set_add. intuition. }
  rewrite G. simpl. intuition.
Qed.

Lemma NoDup_set_of (l : list string) : NoDup (Py.set_of l).
Proof.
  unfold Py.set_of.
  assert (G : forall acc, NoDup acc ->
             NoDup (fold_left (fun a y => Py.set_add y a) l acc)).
  { induction l as [|y l IH]; intros acc H; simpl; trivial.
    apply IH. now apply NoDup_set_add. }
  apply G. constructor.
Qed.

(** X1. The crawl of b2_scrape.py ends for every site and every ceiling,
    with at most [max_pages] pages in [visited], and it ends with an empty
    queue or a full [visited]. *)
Theorem b2_crawl_terminates_within_ceiling :
  forall (W : Type) (get : W -> string -> W * option B2.Dom)
         (sleep : nat -> W -> W) (netloc : string -> string) (w : W)
         (base_url : string) (known : list string) (max_pages : nat),
    exists fuel st,
      B2.crawl_site get sleep netloc fuel w base_url known max_pages = Some st /\
      length (visited st) <= max_pages /\
      (to_visit st = [] \/ length (visited st) = max_pages).
Proof.
  intros W get sleep netloc w base_url known max_pages.
  destruct (@crawl_loop_total W max_pages
              (B2.crawl_body get sleep netloc base_url known)
              (fun st => @b2_crawl_advances W get sleep netloc base_url known
                           max_pages st)
              (mkCrawl [] [] [base_url] [] w))
    as (fuel & st & n & H & Hb & He & _); [simpl; lia|].
  exists fuel, st. now repeat split.
Qed.

(** X2. In a crawl of b2_scrape.py no URL is loaded twice, whether its load
    succeeded or failed, no URL of the already-known set is loaded, and
    every URL that was loaded is in [visited]. *)
Theorem b2_crawl_loads_each_url_once :
  forall (W : Type) (get : W -> string -> W * option B2.Dom)
         (sleep : nat -> W -> W) (netloc : string -> string) (fuel : nat)
         (w : W) (base_url : string) (known : list string) (max_pages : nat)
         (st : Crawl W),
    B2.crawl_site get sleep netloc fuel w base_url known max_pages = Some st ->
    NoDup (checked st) /\
    forall u, In u (checked st) -> In u (visited st) /\ ~ In u known.
Proof. intros. eapply b2_fetches_once; eassumption. Qed.

Lemma b2_crawl_loads_each_url_once_shop :
  exists st,
    B2.crawl_site B2Sites.shop_site B2Sites.no_sleep simple_netloc 10 tt
      B2.BASE_URL [] 5000 = Some st /\
    NoDup (checked st) /\
    forall u, In u (checked st) -> In u (visited st) /\ ~ In u [].
Proof.
  eexists. split; [vm_compute; reflexivity|].
  apply (@b2_crawl_loads_each_url_once unit B2Sites.shop_site B2Sites.no_sleep
           simple_netloc 10 tt B2.BASE_URL [] 5000).
  vm_compute. reflexivity.
Defined.

Section ProductsNew.

Variable W : Type.
Variable netloc : string -> string.
Variable base_url : string.
Variable known : list string.

Lemma products_new_grow (st : Crawl W) (vis chk q : list string) (w : W) :
  products_new base_url known st ->
  (forall u, In u (visited st) -> In u vis) ->
  (forall u, In u (checked st) -> In u chk) ->
  products_new base_url known (mkCrawl vis (product_urls st) q chk w).
Proof.
  intros [Hn Hp] Hv Hc. split; simpl; trivial.
  intros u Hu. destruct (Hp u Hu) as (H1 & H2 & H3 & H4). auto.
Qed.

Lemma products_new_add (st : Crawl W) (u : string) (q : list string) (w : W) :
  products_new base_url known st ->
  u <> base_url -> ~ In u known ->
  products_new base_url known
    (mkCrawl (Py.set_add u (visited st)) (Py.set_add u (product_urls st)) q
       (checked st ++ [u]) w).
Proof.
  intros [Hn Hp] Hb Hk. split; simpl.
  - now apply NoDup_set_add.
  - intros x Hx. apply In_set_add in Hx as [-> | Hx].
    + repeat split; trivial.
      * apply In_set_add. now left.
      * apply in_or_app. right. now left.
    + destruct (Hp x Hx) as (H1 & H2 & H3 & H4). repeat split; trivial.
      * apply In_set_add. now right.
      * apply in_or_app. now left.
Qed.

Ltac grow :=
  apply products_new_grow; trivial;
  intros ? ?;
  repeat first [ apply In_set_add; right | apply in_or_app; left ];
  assumption.

Lemma sd_products_step (get : W -> string -> W * option SD.Dom)
    (st : Crawl W) :
  products_new base_url known st ->
  products_new base_url known (SD.crawl_body get netloc base_url known st).
Proof.
  intros H. unfold SD.crawl_body.
  destruct (to_visit st) as [|u rest]; trivial.
  destruct (Py.mem u (visited st)); simpl; [grow|].
  destruct (Py.mem u known) eqn:Ek; simpl; [grow|].
  destruct (SD.matches_pattern u); [grow|].
  destruct (SD.is_download u); [grow|].
  destruct (get (world st) u) as [w [dom|]]; [|grow].
  destruct (negb (String.eqb u base_url)) eqn:Eb; simpl; [|grow].
  destruct (SD.is_product_page dom); [|grow].
  apply products_new_add; trivial.
  - apply negb_true_iff, String.eqb_neq in Eb. exact Eb.
  - rewrite <- mem_In. congruence.
Qed.

Lemma ws_products_step (get : W -> string -> W * option WS.Dom)
    (st : Crawl W) :
  products_new base_url known st ->
  products_new base_url known (WS.crawl_body get netloc base_url known st).
Proof.
  intros H. unfold WS.crawl_body.
  destruct (to_visit st) as [|u rest]; trivial.
  destruct (Py.mem u (visited st)); simpl; [grow|].
  destruct (WS.matches_pattern u || WS.is_download u || WS.is_display u);
    [grow|].
  destruct (get (world st) u) as [w [dom|]]; [|grow].
  destruct (negb (String.eqb u base_url)) eqn:Eb; simpl.
  2: { destruct (Py.contains "/newReview" u || WS.is_display u); grow. }
  destruct (WS.is_product_page dom); simpl.
  2: { destruct (Py.contains "/newReview" u || WS.is_display u); grow. }
  destruct (Py.mem u known) eqn:Ek; simpl.
  { destruct (Py.contains "/newReview" u || WS.is_display u); grow. }
  assert (Hb : u <> base_url)
    by (apply negb_true_iff, String.eqb_neq in Eb; exact Eb).
  assert (Hk : ~ In u known) by (rewrite <- mem_In; congruence).
  destruct (Py.contains "/newReview" u || WS.is_display u);
    now apply products_new_add.
Qed.

Lemma b2_products_step (get : W -> string -> W * option B2.Dom)
    (sleep : nat -> W -> W) (st : Crawl W) :
  products_new base_url known st ->
  products_new base_url known
    (B2.crawl_body get sleep netloc base_url known st).
Proof.
  intros H. unfold B2.crawl_body.
  destruct (to_visit st) as [|raw rest]; trivial.
  set (u := b2_strip_query raw).
  destruct (Py.mem u (visited st)); simpl; [grow|].
  destruct (Py.mem u known) eqn:Ek; simpl; [grow|].
  destruct (B2.has_skipped_ext u); simpl; [grow|].
  destruct (B2.is_excluded u); simpl; [grow|].
  destruct (B2.load_page_with_retry get sleep (world st) u) as [w [dom|]];
    [|grow].
  destruct (negb (String.eqb u base_url)) eqn:Eb; simpl; [|grow].
  destruct (B2.is_product_page dom); [|grow].
  apply products_new_add; trivial.
  - apply negb_true_iff, String.eqb_neq in Eb. exact Eb.
  - rewrite <- mem_In. congruence.
Qed.

Lemma products_new_init (w : W) :
  products_new base_url known (mkCrawl [] [] [base_url] [] w).
Proof. split; simpl; [constructor | easy]. Qed.

End ProductsNew.

(** X3. The product URLs returned by each of the three crawls are pairwise
    distinct, never contain the seed URL, never contain a URL of the set the
    caller passed as already known, and were all loaded in this crawl. *)
Theorem crawl_products_are_new :
  forall (W : Type) (netloc : string -> string) (fuel : nat) (w : W)
         (base_url : string) (known : list string) (max_pages : nat)
         (st : Crawl W),
    (forall get,
        SD.crawl_site get netloc fuel w base_url known max_pages = Some st ->
        products_new base_url known st) /\
    (forall get,
        WS.crawl_site get netloc fuel w base_url max_pages known = Some st ->
        products_new base_url known st) /\
    (forall get sleep,
        B2.crawl_site get sleep netloc fuel w base_url known max_pages
        = Some st ->
        products_new base_url known st).
Proof.
  intros W netloc fuel w base_url known max_pages st. split; [|split].
  - intros get. unfold SD.crawl_site. apply while_loop_invariant.
    + intros x Hx _. now apply sd_products_step.
    + apply products_new_init.
  - intros get. unfold WS.crawl_site. apply while_loop_invariant.
    + intros x Hx _. now apply ws_products_step.
    + apply products_new_init.
  - intros get sleep. unfold B2.crawl_site. apply while_loop_invariant.
    + intros x Hx _. now apply b2_products_step.
    + apply products_new_init.
Qed.

Lemma crawl_products_are_new_shops :
  exists st1 st2 st3,
    (SD.crawl_site Sites.sd_shop_site simple_netloc 10 tt Sites.sd_base []
       5000 = Some st1 /\
     products_new Sites.sd_base [] st1) /\
    (WS.crawl_site WSSites.shop_site simple_netloc 10 tt WSRows.BASE_URL
       5000 [] = Some st2 /\
     products_new WSRows.BASE_URL [] st2) /\
    (B2.crawl_site B2Sites.shop_site B2Sites.no_sleep simple_netloc 10 tt
       B2.BASE_URL [] 5000 = Some st3 /\
     products_new B2.BASE_URL [] st3).
Proof.
  eexists. eexists. eexists. split; [|split].
  - split; [vm_compute; reflexivity|].
    refine (proj1 (crawl_products_are_new simple_netloc 10 tt Sites.sd_base
                     [] 5000 _) Sites.sd_shop_site _).
    vm_compute. reflexivity.
  - split; [vm_compute; reflexivity|].
    refine (proj1 (proj2 (crawl_products_are_new simple_netloc 10 tt
                            WSRows.BASE_URL [] 5000 _)) WSSites.shop_site _).
    vm_compute. reflexivity.
  - split; [vm_compute; reflexivity|].
    refine (proj2 (proj2 (crawl_products_are_new simple_netloc 10 tt
                            B2.BASE_URL [] 5000 _))
              B2Sites.shop_site B2Sites.no_sleep _).
    vm_compute. reflexivity.
Defined.

Lemma contains_char (c : ascii) (s : string) :
  Py.contains (String c EmptyString) s = Py.has_char c s.
Proof.
  induction s as [|a s IH]; simpl; trivial.
  rewrite IH, andb_true_r, Ascii.eqb_sym. reflexivity.
Qed.

Section KnownSkipped.

Variable W : Type.
Variable netloc : string -> string.
Variable base_url : string.
Variable known : list string.

Lemma sd_known_step (get : W -> string -> W * option SD.Dom) (st : Crawl W) :
  (forall u, In u (checked st) -> ~ In u known) ->
  forall u, In u (checked (SD.crawl_body get netloc base_url known st)) ->
            ~ In u known.
Proof.
  intros H. unfold SD.crawl_body.
  destruct (to_visit st) as [|x rest]; trivial.
  destruct (Py.mem x (visited st)); simpl; trivial.
  destruct (Py.mem x known) eqn:Ek; simpl; trivial.
  destruct (SD.matches_pattern x); trivial.
  destruct (SD.is_download x); trivial.
  assert (G : forall u, In u (checked st ++ [x]) -> ~ In u known).
  { intros u Hu. apply in_app_iff in Hu as [Hu | [<- | []]]; auto.
    rewrite <- mem_In. congruence. }
  destruct (get (world st) x) as [w [dom|]]; exact G.
Qed.

Lemma ws_new_links_unknown (domain : string) (vis : list string)
    (href_list : list string) (u : string) :
  In u (WS.new_links netloc domain vis known href_list) -> ~ In u known.
Proof.
  unfold WS.new_links. rewrite in_flat_map. intros (href & _ & H).
  destruct (WS.matches_pattern href); [easy|].
  destruct (WS.is_download href); [easy|].
  destruct (WS.is_display href); [easy|].
  destruct (String.eqb (netloc href) domain); [|easy].
  destruct (Py.mem (Py.before "#" href) vis); simpl in H; [easy|].
  destruct (Py.mem (Py.before "#" href) known) eqn:Ek; [easy|].
  destruct H as [<- | []]. rewrite <- mem_In. congruence.
Qed.

Lemma ws_inv_step (get : W -> string -> W * option WS.Dom) (st : Crawl W) :
  ws_inv base_url known st ->
  ws_inv base_url known (WS.crawl_body get netloc base_url known st).
Proof.
  intros Hst. pose proof Hst as [Hq Hc]. unfold WS.crawl_body.
  destruct (to_visit st) as [|x rest] eqn:Q; [exact Hst|].
  assert (Hrest : forall u, In u rest -> u = base_url \/ ~ In u known)
    by (intros u Hu; apply Hq; now right).
  assert (Hx : x = base_url \/ ~ In x known) by (apply Hq; now left).
  destruct (Py.mem x (visited st)); [now split|].
  destruct (WS.matches_pattern x || WS.is_download x || WS.is_display x) eqn:E;
    [now split|].
  apply orb_false_iff in E as [E Ed]. apply orb_false_iff in E as [Ep Ee].
  assert (Hc' : forall u, In u (checked st ++ [x]) ->
            WS.matches_pattern u = false /\ WS.is_download u = false /\
            WS.is_display u = false /\ (u = base_url \/ ~ In u known)).
  { intros u Hu. apply in_app_iff in Hu as [Hu | [<- | []]]; auto. }
  destruct (get (world st) x) as [w [dom|]]; [|now split].
  destruct (Py.contains "/newReview" x || WS.is_display x);
    split; simpl; trivial.
  intros u Hu. apply in_app_iff in Hu as [Hu | Hu]; auto.
  right. eapply ws_new_links_unknown; eassumption.
Qed.

End KnownSkipped.

(** X4. The crawl of sd_scrape.py never loads a URL of the already-known
    set. The crawl of ws_scrape.py never loads a URL that matches its
    substring denylist, its extension denylist or "?display=", hence never a
    URL with a "#" in it, and never a known URL other than the seed. *)
Theorem crawls_load_only_allowed_urls :
  forall (W : Type) (netloc : string -> string) (fuel : nat) (w : W)
         (base_url : string) (known : list string) (max_pages : nat)
         (st : Crawl W),
    (forall get,
        SD.crawl_site get netloc fuel w base_url known max_pages = Some st ->
        forall u, In u (checked st) -> ~ In u known) /\
    (forall get,
        WS.crawl_site get netloc fuel w base_url max_pages known = Some st ->
        forall u, In u (checked st) ->
          WS.matches_pattern u = false /\ WS.is_download u = false /\
          WS.is_display u = false /\ Py.has_char "#" u = false /\
          (u = base_url \/ ~ In u known)).
Proof.
  intros W netloc fuel w base_url known max_pages st. split.
  - intros get H. unfold SD.crawl_site in H.
    refine (@while_loop_invariant _ _ _
              (fun st : Crawl W => forall u, In u (checked st) -> ~ In u known)
              _ _ _ _ _ H).
    + intros x Hx _. now apply sd_known_step.
    + simpl. easy.
  - intros get H.
    assert (Hinv : ws_inv base_url known st).
    { revert H. unfold WS.crawl_site. apply while_loop_invariant.
      - intros x Hx _. now apply ws_inv_step.
      - split; simpl; [|easy]. intros u [<- | []]. now left. }
    intros u Hu. destruct Hinv as [_ Hc].
    destruct (Hc u Hu) as (Hp & He & Hd & Hk). repeat split; trivial.
    rewrite <- contains_char. unfold WS.matches_pattern in Hp. simpl in Hp.
    repeat (apply orb_false_iff in Hp as [? Hp]). assumption.
Qed.

Lemma crawls_load_only_allowed_urls_shops :
  exists st1 st2,
    (SD.crawl_site Sites.sd_shop_site simple_netloc 10 tt Sites.sd_base
       [Sites.sd_stand] 5000 = Some st1 /\
     ~ In Sites.sd_stand (checked st1)) /\
    (WS.crawl_site WSSites.shop_site simple_netloc 10 tt WSRows.BASE_URL
       5000 [] = Some st2 /\
     Py.has_char "#" WSSites.t_shirt = false).
Proof.
  eexists. eexists. split.
  - split; [vm_compute; reflexivity|].
    intros Hin.
    refine (proj1 (crawls_load_only_allowed_urls simple_netloc 10 tt
                     Sites.sd_base [Sites.sd_stand] 5000 _)
              Sites.sd_shop_site _ Sites.sd_stand Hin _);
      [vm_compute; reflexivity | now left].
  - split; [vm_compute; reflexivity|].
    refine (proj1 (proj2 (proj2 (proj2
              (proj2 (crawls_load_only_allowed_urls simple_netloc 10 tt
                        WSRows.BASE_URL [] 5000 _)
                 WSSites.shop_site _ WSSites.t_shirt _)))));
      [vm_compute; reflexivity | vm_compute; tauto].
Defined.

(** * Retries *)

(** X5. [load_page_with_retry] on a page that loads from its [k]-th attempt
    on: for [k] up to [MAX_RETRIES] it returns the page after exactly [k]
    attempts and [RETRY_DELAY] seconds of sleep between consecutive
    attempts; beyond, it gives up after [MAX_RETRIES] attempts, without a
    sleep after the last one. *)
Theorem b2_load_retries_until_loaded :
  forall (k : nat) (d : B2.Dom) (url : string),
    (1 <= k <= B2.MAX_RETRIES ->
     B2.load_page_with_retry (B2Sites.loads_at k d) B2Sites.counting_sleep
       (0, 0) url
     = ((k, B2.RETRY_DELAY * (k - 1)), B2.Loaded d)) /\
    (B2.MAX_RETRIES < k ->
     B2.load_page_with_retry (B2Sites.loads_at k d) B2Sites.counting_sleep
       (0, 0) url
     = ((B2.MAX_RETRIES, B2.RETRY_DELAY * (B2.MAX_RETRIES - 1)), B2.Exited)).
Proof.
  intros k d url. unfold B2.MAX_RETRIES, B2.RETRY_DELAY. split; intros Hk.
  - destruct k as [|[|[|[|[|[|k]]]]]]; try lia; reflexivity.
  - do 6 (destruct k as [|k]; [lia|]). reflexivity.
Qed.

Lemma b2_load_retries_until_loaded_third :
  B2.load_page_with_retry (B2Sites.loads_at 3 B2Sites.home)
    B2Sites.counting_sleep (0, 0) B2.BASE_URL
  = ((3, 10), B2.Loaded B2Sites.home) /\
  B2.load_page_with_retry (B2Sites.loads_at 6 B2Sites.home)
    B2Sites.counting_sleep (0, 0) B2.BASE_URL
  = ((5, 20), B2.Exited).
Proof.
  split.
  - apply (proj1 (b2_load_retries_until_loaded 3 B2Sites.home B2.BASE_URL)).
    unfold B2.MAX_RETRIES. lia.
  - apply (proj2 (b2_load_retries_until_loaded 6 B2Sites.home B2.BASE_URL)).
    unfold B2.MAX_RETRIES. lia.
Defined.

(** X6. [login] of ws_scrape.py when the form goes through from the [k]-th
    attempt on: for [k] up to 5 it returns [True] after [k] attempts; beyond,
    it returns [False] after 5 attempts. It sleeps 5 seconds after every
    failed attempt, the last one included. *)
Theorem ws_login_retries :
  forall k : nat,
    (1 <= k <= 5 ->
     WSRows.login (WSSites.login_at k) WSSites.counting_sleep 5 (0, 0)
     = ((k, 5 * (k - 1)), true)) /\
    (5 < k ->
     WSRows.login (WSSites.login_at k) WSSites.counting_sleep 5 (0, 0)
     = ((5, 25), false)).
Proof.
  intros k. split; intros Hk.
  - destruct k as [|[|[|[|[|[|k]]]]]]; try lia; reflexivity.
  - do 6 (destruct k as [|k]; [lia|]). reflexivity.
Qed.

Lemma ws_login_retries_second :
  WSRows.login (WSSites.login_at 2) WSSites.counting_sleep 5 (0, 0)
  = ((2, 5), true) /\
  WSRows.login (WSSites.login_at 9) WSSites.counting_sleep 5 (0, 0)
  = ((5, 25), false).
Proof.
  split.
  - apply (proj1 (ws_login_retries 2)). lia.
  - apply (proj2 (ws_login_retries 9)). lia.
Defined.

(** * Further properties of b2_scrape.py *)

Lemma fold_left_preserves (A B : Type) (P : A -> Prop) (f : A -> B -> A)
    (l : list B) :
  (forall acc x, P acc -> P (f acc x)) ->
  forall acc, P acc -> P (fold_left f l acc).
Proof.
  intros Hf. induction l as [|x l IH]; simpl; intros acc Hacc; trivial.
  apply IH, Hf, Hacc.
Qed.

Lemma truthy_nonempty (t : string) : Py.truthy t = true -> t <> "".
Proof.
  unfold Py.truthy. intros H. apply negb_true_iff in H.
  now apply String.eqb_neq.
Qed.

(** An option list in the making: no duplicate and no empty label. *)
Lemma add_val_clean (t : string) (vals : list string) :
  NoDup vals /\ ~ In "" vals ->
  NoDup (B2.add_val t vals) /\ ~ In "" (B2.add_val t vals).
Proof.
  intros [Hn He]. unfold B2.add_val.
  destruct (Py.truthy t) eqn:Et; simpl; [|now split].
  destruct (Py.mem t vals) eqn:Em; simpl; [now split|].
  split.
  - apply NoDup_snoc; trivial. rewrite <- mem_In. congruence.
  - rewrite in_app_iff. intros [H | [H | []]]; [easy|].
    apply truthy_nonempty in Et. congruence.
Qed.

Lemma add_option_clean (t : string) (vals : list string) :
  NoDup vals /\ ~ In "" vals ->
  NoDup (B2.add_option t vals) /\ ~ In "" (B2.add_option t vals).
Proof.
  intros [Hn He]. unfold B2.add_option.
  destruct (Py.truthy t) eqn:Et;
    destruct (Py.startswith "please select" (Py.lower t));
    destruct (Py.mem t vals) eqn:Em; cbn [andb negb]; try (now split).
  split.
  - apply NoDup_snoc; trivial. rewrite <- mem_In. congruence.
  - rewrite in_app_iff. intros [H | [H | []]]; [easy|].
    apply truthy_nonempty in Et. congruence.
Qed.

Lemma block_vals_clean (attr : B2.AttrBlock) :
  NoDup (B2.block_vals attr) /\ ~ In "" (B2.block_vals attr).
Proof.
  assert (H0 : NoDup (@nil string) /\ ~ In "" (@nil string))
    by (split; [constructor | easy]).
  unfold B2.block_vals.
  pose proof (fold_left_preserves
                (fun v => NoDup v /\ ~ In "" v)
                (fun v it => B2.add_val (Py.strip it) v)
                (B2.blk_buttons attr)
                (fun acc x => @add_val_clean (Py.strip x) acc) [] H0) as Hb.
  destruct (fold_left _ (B2.blk_buttons attr) []) as [|b bs]; [|exact Hb].
  apply fold_left_preserves; [intros acc x; apply add_val_clean|].
  apply fold_left_preserves; trivial.
  intros acc sc Hacc. unfold B2.select_vals.
  destruct (negb (B2.sel_clickable sc)); trivial.
  destruct (B2.sel_listbox sc) as [lis|].
  - apply fold_left_preserves; [intros a x; apply add_option_clean|].
    now apply add_option_clean.
  - now apply add_option_clean.
Qed.

Lemma dict_set_keys (name : string) (vals : list string)
    (m : list (string * list string)) :
  NoDup (map fst m) -> NoDup (map fst (B2.dict_set name vals m)).
Proof.
  induction m as [|[k v] m IH]; simpl; intros H.
  - constructor; [easy | constructor].
  - inversion H as [|? ? Hk Hm]; subst.
    destruct (String.eqb k name) eqn:E; simpl.
    + now constructor.
    + constructor; [|now apply IH].
      intros Hin. apply Hk. clear IH H Hk Hm.
      induction m as [|[k' v'] m IH]; simpl in *.
      * destruct Hin as [Hin | []]. subst. now rewrite String.eqb_refl in E.
      * destruct (String.eqb k' name); simpl in Hin; [exact Hin|].
        destruct Hin as [Hin | Hin]; [now left | right; now apply IH].
Qed.

Lemma dict_set_values (name : string) (vals : list string)
    (m : list (string * list string)) (k : string) (v : list string) :
  In (k, v) (B2.dict_set name vals m) -> v = vals \/ In (k, v) m.
Proof.
  induction m as [|[k' v'] m IH]; simpl.
  - intros [[= _ <-] | []]. now left.
  - destruct (String.eqb k' name); simpl.
    + intros [[= _ <-] | H]; [now left | right; now right].
    + intros [H | H]; [right; now left|].
      destruct (IH H); [now left | right; now right].
Qed.

(** X7. The mapping returned by [get_attribute_options] is well formed:
    the attribute names are pairwise distinct, and every option list is
    non-empty, has no duplicate and no empty label. *)
Theorem b2_attribute_options_well_formed :
  forall d : B2.Dom,
    NoDup (map fst (B2.get_attribute_options d)) /\
    forall name vals,
      In (name, vals) (B2.get_attribute_options d) ->
      vals <> [] /\ NoDup vals /\ ~ In "" vals.
Proof.
  intros d. unfold B2.get_attribute_options.
  apply fold_left_preserves
    with (P := fun m : list (string * list string) =>
                 NoDup (map fst m) /\
                 forall name vals, In (name, vals) m ->
                   vals <> [] /\ NoDup vals /\ ~ In "" vals).
  - intros m attr [Hk Hv].
    destruct (block_vals_clean attr) as [Hn He].
    destruct (B2.block_vals attr) as [|b bs] eqn:E; [now split|].
    split; [now apply dict_set_keys|].
    intros name vals Hin. apply dict_set_values in Hin as [-> | Hin].
    + repeat split; trivial. discriminate.
    + now apply (Hv name).
  - split; [constructor | easy].
Qed.

Lemma b2_attribute_options_well_formed_overlapping :
  NoDup (map fst (B2.get_attribute_options B2Sites.overlapping)) /\
  NoDup ["24x36"; "24x36; Grommets: Yes"].
Proof.
  destruct (b2_attribute_options_well_formed B2Sites.overlapping) as [Hk Hv].
  split; [exact Hk|].
  apply (Hv "Size" ["24x36"; "24x36; Grommets: Yes"]).
  vm_compute. now left.
Defined.




Lemma all_digits_app (s t : string) :
  Py.all_digits s = true -> Py.all_digits t = true ->
  Py.all_digits (s ++ t) = true.
Proof.
  induction s as [|a s IH]; simpl; trivial.
  intros H Ht. apply andb_true_iff in H as [Ha Hs].
  rewrite Ha. simpl. now apply IH.
Qed.

Lemma digits_to_Z_nonneg (s : string) :
  forall acc, (0 <= acc)%Z -> Py.all_digits s = true ->
              (0 <= Py.digits_to_Z acc s)%Z.
Proof.
  induction s as [|a s IH]; intros acc Hacc H; [exact Hacc|].
  cbn [Py.all_digits] in H. cbn [Py.digits_to_Z].
  apply andb_true_iff in H as [Ha Hs]. apply IH; trivial.
  unfold Py.is_digit in Ha. apply andb_true_iff in Ha as [Hlo _].
  apply Nat.leb_le in Hlo. lia.
Qed.

Lemma float_nonneg (num : string) (q : Q) :
  Py.float num = Some q -> (0 <= q)%Q.
Proof.
  unfold Py.float.
  destruct (Py.all_digits (Py.before "." num)) eqn:Ei; [|discriminate].
  destruct (Py.all_digits (Py.after "." num)) eqn:Ef; [|discriminate].
  simpl. destruct (0 <? _); [|discriminate].
  intros [= <-]. unfold Qle. simpl. rewrite Z.mul_1_r.
  apply digits_to_Z_nonneg; [lia|]. now apply all_digits_app.
Qed.

(** X9. [parse_price_table] never returns a negative price: whatever the
    text of the subtotal, a sign in it is dropped with the other characters
    that are neither digit nor dot. *)
Theorem b2_price_never_negative :
  forall (d : B2.Dom) (chosen : B2.Chosen) (q : Q),
    B2.parse_price_table d chosen = B2.Ok (Some q) -> (0 <= q)%Q.
Proof.
  intros d chosen q. unfold B2.parse_price_table.
  destruct (B2.subtotal d chosen) as [text|]; [|discriminate].
  destruct (Py.contains "$" text); [|discriminate].
  destruct (Py.truthy _); [|discriminate].
  destruct (Py.float _) as [q'|] eqn:E; [|discriminate].
  intros [= <-]. eapply float_nonneg. exact E.
Qed.

Lemma b2_price_never_negative_refund :
  exists q,
    B2.parse_price_table (B2Sites.plain_product "-$5.00") [] = B2.Ok (Some q) /\
    (0 <= q)%Q /\ (q == 5)%Q.
Proof.
  eexists. split; [vm_compute; reflexivity|]. split; [|reflexivity].
  apply (@b2_price_never_negative (B2Sites.plain_product "-$5.00") []).
  vm_compute. reflexivity.
Defined.

Lemma digit_or_dot_not_space (a : ascii) :
  Py.is_space a = true -> B2.digit_or_dot a = false.
Proof.
  destruct a as [b0 b1 b2 b3 b4 b5 b6 b7].
  destruct b0, b1, b2, b3, b4, b5, b6, b7; vm_compute; congruence.
Qed.

Section KeepStrip.

Variable class : ascii -> bool.
Hypothesis class_not_space : forall a, Py.is_space a = true -> class a = false.

Lemma keep_lstrip (s : string) : Py.keep class (Py.lstrip s) = Py.keep class s.
Proof.
  induction s as [|a s IH]; simpl; trivial.
  destruct (Py.is_space a) eqn:E; simpl; trivial.
  now rewrite IH, (class_not_space _ E).
Qed.

Lemma keep_rstrip (s : string) : Py.keep class (Py.rstrip s) = Py.keep class s.
Proof.
  induction s as [|a s IH]; simpl; trivial.
  destruct (Py.rstrip s) as [|b r] eqn:Er.
  - simpl in IH. rewrite <- IH.
    destruct (Py.is_space a) eqn:E; simpl.
    + now rewrite (class_not_space _ E).
    + reflexivity.
  - change (Py.keep class (String a (String b r)))
      with (if class a then String a (Py.keep class (String b r))
            else Py.keep class (String b r)).
    now rewrite IH.
Qed.

Lemma keep_strip (s : string) : Py.keep class (Py.strip s) = Py.keep class s.
Proof. unfold Py.strip. now rewrite keep_rstrip, keep_lstrip. Qed.

End KeepStrip.

(** X10. What [parse_price_table] returns depends on two things only:
    whether the subtotal text has a "$", and its digits and dots in
    order. Currency words, thousands separators and white space, wherever
    they stand, change nothing. *)
Theorem b2_price_reads_digits_and_dots :
  forall (d1 d2 : B2.Dom) (c1 c2 : B2.Chosen) (t1 t2 : string),
    B2.subtotal d1 c1 = Some t1 ->
    B2.subtotal d2 c2 = Some t2 ->
    Py.contains "$" t1 = Py.contains "$" t2 ->
    Py.keep B2.digit_or_dot t1 = Py.keep B2.digit_or_dot t2 ->
    B2.parse_price_table d1 c1 = B2.parse_price_table d2 c2.
Proof.
  intros d1 d2 c1 c2 t1 t2 H1 H2 Hd Hk. unfold B2.parse_price_table.
  rewrite H1, H2, Hd.
  rewrite !(keep_strip B2.digit_or_dot digit_or_dot_not_space), Hk.
  reflexivity.
Qed.

Lemma b2_price_reads_digits_and_dots_separators :
  B2.parse_price_table (B2Sites.plain_product "$1,234.50") []
  = B2.parse_price_table (B2Sites.plain_product "Total: USD $ 1234.50 ") [].
Proof.
  apply (@b2_price_reads_digits_and_dots
           (B2Sites.plain_product "$1,234.50")
           (B2Sites.plain_product "Total: USD $ 1234.50 ") [] []
           "$1,234.50" "Total: USD $ 1234.50 ");
    vm_compute; reflexivity.
Defined.

(** X11. [write_csv] writes one line per row, in order, and leaves the
    options and the price of every row as they are; the first row keeps its
    product, URL and image, and a later row keeps them exactly when its
    product differs from the product of the row above. *)
Theorem b2_write_csv_keeps_rows :
  forall rows : list B2.Row,
    length (B2.write_csv rows) = length rows /\
    map B2.row_options (B2.write_csv rows) = map B2.row_options rows /\
    map B2.row_price (B2.write_csv rows) = map B2.row_price rows /\
    (forall i above r,
        nth_error rows i = Some above -> nth_error rows (S i) = Some r ->
        nth_error (B2.write_csv rows) (S i)
        = Some (if String.eqb (B2.row_product r) (B2.row_product above)
                then B2.mkRow "" "" "" (B2.row_options r) (B2.row_price r)
                else r)) /\
    nth_error (B2.write_csv rows) 0 = nth_error rows 0.
Proof.
  intros rows. unfold B2.write_csv.
  assert (G : forall last,
             length (B2.group_rows last rows) = length rows /\
             map B2.row_options (B2.group_rows last rows)
             = map B2.row_options rows /\
             map B2.row_price (B2.group_rows last rows)
             = map B2.row_price rows /\
             (forall i above r,
                 nth_error rows i = Some above ->
                 nth_error rows (S i) = Some r ->
                 nth_error (B2.group_rows last rows) (S i)
                 = Some (if String.eqb (B2.row_product r) (B2.row_product above)
                         then B2.mkRow "" "" "" (B2.row_options r)
                                (B2.row_price r)
                         else r))).
  { induction rows as [|r0 rest IH]; intros last; simpl.
    - repeat split; trivial. intros [|i]; discriminate.
    - destruct (IH (Some (B2.row_product r0))) as (Hl & Ho & Hp & Hn).
      repeat split.
      + now rewrite Hl.
      + rewrite Ho. now destruct last as [p|]; [destruct (String.eqb _ p)|].
      + rewrite Hp. now destruct last as [p|]; [destruct (String.eqb _ p)|].
      + intros [|i] above r Ha Hr; simpl in *.
        * injection Ha as <-. destruct rest as [|r1 rest']; [discriminate|].
          simpl in *. injection Hr as <-. reflexivity.
        * now apply Hn with (above := above). }
  destruct (G None) as (Hl & Ho & Hp & Hn). repeat split; trivial.
  destruct rows; reflexivity.
Qed.

Lemma b2_write_csv_keeps_rows_pair :
  B2.write_csv
    [B2.mkRow "Banner" "u" "i" "Size: S" B2.EmptyPrice;
     B2.mkRow "Banner" "u" "i" "Size: M" B2.EmptyPrice]
  = [B2.mkRow "Banner" "u" "i" "Size: S" B2.EmptyPrice;
     B2.mkRow "" "" "" "Size: M" B2.EmptyPrice].
Proof.
  pose proof (b2_write_csv_keeps_rows
                [B2.mkRow "Banner" "u" "i" "Size: S" B2.EmptyPrice;
                 B2.mkRow "Banner" "u" "i" "Size: M" B2.EmptyPrice])
    as (_ & _ & _ & Hn & _).
  specialize (Hn 0 _ _ eq_refl eq_refl). vm_compute in Hn |- *.
  reflexivity.
Defined.

Section B2Run.

Variable W : Type.
Variable get : W -> string -> W * option B2.Dom.
Variable sleep : nat -> W -> W.
Variable login_form : W -> W * bool.
Variable netloc : string -> string.

Lemma b2_scrape_page_grows (url : string) (d : B2.Dom)
    (rows rows' : list B2.Row) :
  B2.scrape_page url d rows = B2.Ok (B2.Rows rows') ->
  exists more, rows' = rows ++ more.
Proof.
  intros H. destruct (b2_scrape_page_rows _ _ _ H) as (more & Hm & _).
  now exists more.
Qed.

Lemma interim_save_snapshot (count : nat) (rows more : list B2.Row)
    (csv : option (list B2.Row)) (r : B2.Run W) :
  B2.csv_file r = csv -> csv_is_snapshot r ->
  forall r' : B2.Run W,
    B2.all_rows r' = B2.all_rows r ++ more ->
    B2.csv_file r' = B2.interim_save count (B2.all_rows r ++ more) csv ->
    csv_is_snapshot r'.
Proof.
  intros Hc Hs r' Hr Hc'. unfold csv_is_snapshot in *. rewrite Hc'.
  unfold B2.interim_save. destruct (_ =? 0).
  - exists (B2.all_rows r ++ more), []. now rewrite app_nil_r.
  - rewrite <- Hc. destruct (B2.csv_file r) as [csv0|]; trivial.
    destruct Hs as (written & later & Ha & Hw).
    exists written, (later ++ more). rewrite Hr, Ha, <- app_assoc. now split.
Qed.

(** The loop over the known URLs leaves the known-URL file, the pending
    batch and the set [processed] as they are, and keeps the CSV a
    snapshot. *)
Lemma b2_scrape_existing_keeps (urls : list string) :
  forall r r' e,
    B2.scrape_existing get sleep urls r = (r', e) ->
    B2.scraped_file r' = B2.scraped_file r /\
    B2.batch_new r' = B2.batch_new r /\
    B2.processed r' = B2.processed r /\
    (csv_is_snapshot r -> csv_is_snapshot r').
Proof.
  induction urls as [|url rest IH]; intros r r' e; cbn [B2.scrape_existing].
  - intros [= <- _]. now repeat split.
  - destruct (B2.load_page_with_retry get sleep (B2.session r) url)
      as [w [dom|]]; [|intros [= <- _]; now repeat split].
    destruct (B2.scrape_page url dom (B2.all_rows r)) as [[|rows]|ex] eqn:E.
    + intros H. apply IH in H as (H1 & H2 & H3 & H4). now repeat split.
    + intros H. apply IH in H as (H1 & H2 & H3 & H4).
      repeat split; trivial. intros Hs. apply H4.
      destruct (b2_scrape_page_grows _ _ _ E) as (more & ->).
      eapply interim_save_snapshot with (r := r); trivial; reflexivity.
    + intros [= <- _]. now repeat split.
Qed.

(** The loop over the new URLs: when it runs to its end, the file and the
    pending batch together have gained exactly the URLs of the loop, in
    order. *)
Lemma b2_scrape_new_records (urls : list string) :
  forall r r' e,
    B2.scrape_new get sleep urls r = (r', e) ->
    (csv_is_snapshot r -> csv_is_snapshot r') /\
    (e = None ->
     B2.scraped_file r' ++ B2.batch_new r'
     = (B2.scraped_file r ++ B2.batch_new r) ++ urls).
Proof.
  induction urls as [|url rest IH]; intros r r' e; cbn [B2.scrape_new].
  - intros [= <- _]. split; trivial. intros _. now rewrite app_nil_r.
  - destruct (B2.load_page_with_retry get sleep (B2.session r) url)
      as [w [dom|]]; [|intros [= <- <-]; split; [trivial | discriminate]].
    destruct (B2.scrape_page url dom (B2.all_rows r)) as [[|rows]|ex] eqn:E.
    + intros H. apply IH in H as (H4 & H5). split; [exact H4|].
      intros He. rewrite (H5 He). cbn [B2.scraped_file B2.batch_new].
      now rewrite <- !app_assoc.
    + intros H. apply IH in H as (H4 & H5). split.
      * intros Hs. apply H4.
        destruct (b2_scrape_page_grows _ _ _ E) as (more & ->).
        eapply interim_save_snapshot with (r := r); trivial; reflexivity.
      * intros He. rewrite (H5 He). cbn [B2.scraped_file B2.batch_new].
        destruct (S (B2.new_count r) mod 10 =? 0);
          now rewrite ?app_nil_r, <- ?app_assoc.
    + intros [= <- <-]. split; [trivial | discriminate].
Qed.


(** X13. Whenever a run of b2_scrape.py ends, normally or by an exception,
    the CSV on disk, if there is one, is [write_csv] of an initial part of
    the rows in memory. After a run that completes it is [write_csv] of all
    the rows. *)
Theorem b2_csv_is_always_a_snapshot :
  forall (fuel : nat) (w : W) (file : list string) (r : B2.Run W)
         (e : option B2.Exn),
    B2.main get sleep login_form netloc fuel w file = Some (r, e) ->
    csv_is_snapshot r /\
    (e = None -> B2.csv_file r = Some (B2.write_csv (B2.all_rows r))).
Proof.
  intros fuel w file r e. unfold B2.main.
  destruct (B2.load_page_with_retry get sleep w B2.BASE_URL) as [w0 [home|]].
  2: { intros [= <- <-]. split; [exact I | discriminate]. }
  destruct (login_form w0) as [w1 [|]].
  2: { intros [= <- <-]. split; [exact I | discriminate]. }
  destruct (B2.scrape_existing get sleep file _) as [r1 e1] eqn:E1.
  apply b2_scrape_existing_keeps in E1 as (_ & _ & _ & Hs1).
  specialize (Hs1 I).
  destruct e1 as [ex|].
  { intros [= <- <-]. split; [exact Hs1 | discriminate]. }
  destruct (B2.crawl_site get sleep netloc fuel (B2.session r1) B2.BASE_URL
              (B2.processed r1) 5000) as [st|]; [|discriminate].
  destruct (B2.scrape_new get sleep (product_urls st) _) as [r3 e3] eqn:E3.
  apply b2_scrape_new_records in E3 as (Hs3 & _).
  specialize (Hs3 Hs1).
  destruct e3 as [ex|].
  - intros [= <- <-]. split; [exact Hs3 | discriminate].
  - intros [= <- <-]. split; [|reflexivity].
    unfold csv_is_snapshot. cbn [B2.csv_file B2.all_rows].
    exists (B2.all_rows r3), []. now rewrite app_nil_r.
Qed.

End B2Run.


Lemma b2_csv_is_always_a_snapshot_shop :
  exists r,
    B2.main (B2Sites.banner_site "$10.00 - $20.00") B2Sites.no_sleep
      B2Sites.login_ok simple_netloc 10 tt [B2Sites.banner]
    = Some (r, Some B2.ValueError) /\
    csv_is_snapshot r.
Proof.
  eexists.
  assert (H : B2.main (B2Sites.banner_site "$10.00 - $20.00") B2Sites.no_sleep
                B2Sites.login_ok simple_netloc 10 tt [B2Sites.banner]
              = Some (_, Some B2.ValueError))
    by (vm_compute; reflexivity).
  split; [exact H|].
  exact (proj1 (b2_csv_is_always_a_snapshot _ _ _ _ _ _ _ H)).
Defined.

(** * Further properties of ws_scrape.py *)

(** X14. [fix_qty_value] is idempotent: a quantity range that has received
    its apostrophe is not a range any more, so fixing the quantities of the
    same entries again at every save changes nothing. *)
Theorem ws_fix_qty_value_idempotent :
  forall qty : string,
    WSRows.fix_qty_value (WSRows.fix_qty_value qty) = WSRows.fix_qty_value qty.
Proof.
  intros qty. unfold WSRows.fix_qty_value.
  destruct (WSRows.is_qty_range qty) eqn:E.
  - reflexivity.
  - now rewrite E.
Qed.

Lemma ws_fix_entry_idempotent (e : WS.Entry) :
  WSRows.fix_entry (WSRows.fix_entry e) = WSRows.fix_entry e.
Proof.
  unfold WSRows.fix_entry. simpl. f_equal. rewrite map_map.
  apply map_ext. intros q. apply ws_fix_qty_value_idempotent.
Qed.

Lemma fold_max_upper (n : nat) (l : list nat) :
  In n l -> n <= fold_right Nat.max 0 l.
Proof.
  induction l as [|m l IH]; simpl; [easy|].
  intros [-> | H]; [lia|]. apply IH in H. lia.
Qed.

Lemma max_qty_cols_upper (data : list WS.Entry) (e : WS.Entry) :
  In e data -> length (WS.qtys e) <= WSRows.max_qty_cols data.
Proof.
  intros He. unfold WSRows.max_qty_cols.
  destruct (length (WS.qtys e)) as [|n] eqn:En; [lia|].
  assert (Hin : In (S n)
                  (filter (fun n => negb (n =? 0))
                     (map (fun e => length (WS.qtys e)) data))).
  { apply filter_In. split; [|reflexivity].
    rewrite <- En. now apply (in_map (fun e => length (WS.qtys e))). }
  destruct (filter _ _) as [|m l] eqn:Ef; [easy|].
  now apply fold_max_upper.
Qed.

Lemma max_qty_cols_positive (data : list WS.Entry) :
  1 <= WSRows.max_qty_cols data.
Proof.
  unfold WSRows.max_qty_cols.
  destruct (filter _ _) as [|m l] eqn:Ef; [lia|].
  assert (Hm : In m (filter (fun n => negb (n =? 0))
                       (map (fun e => length (WS.qtys e)) data)))
    by (rewrite Ef; now left).
  apply filter_In in Hm as [_ Hm]. apply negb_true_iff, Nat.eqb_neq in Hm.
  simpl. lia.
Qed.

Lemma pad_length (n : nat) (l : list string) :
  length (WSRows.pad n l) = Nat.max n (length l).
Proof. unfold WSRows.pad. rewrite length_app, repeat_length. lia. Qed.

Lemma entry_rows_shape (cols : nat) (e : WS.Entry) :
  1 <= cols ->
  exists row_qty row_price,
    WSRows.entry_rows cols e = [row_qty; row_price] /\
    length row_qty = 4 + Nat.max cols (length (WS.qtys e)) /\
    length row_price = 4 + Nat.max cols (length (WS.prices e)).
Proof.
  intros Hc. unfold WSRows.entry_rows.
  pose proof (pad_length cols (WS.prices e)) as Hp.
  destruct (WSRows.pad cols (WS.prices e)) as [|p ps] eqn:Ep.
  { simpl in Hp. lia. }
  eexists. eexists. split; [reflexivity|]. split.
  - rewrite !length_app, pad_length. simpl.
    destruct (WS.first e); [destruct (WS.product e) as [[? ?] ?]|];
      simpl; lia.
  - simpl in *. lia.
Qed.

(** X15. [generate_final_rows] returns exactly two rows for every entry, a
    quantity row and a price row: the branch that builds a single row is
    never taken, because the price list is padded to at least one cell.
    When no entry has more prices than quantities, every row has the same
    number of cells, four plus the widest quantity list. *)
Theorem ws_csv_has_two_rows_per_entry :
  forall data : list WS.Entry,
    length (snd (WSRows.generate_final_rows data)) = 2 * length data /\
    ((forall e, In e data -> length (WS.prices e) <= length (WS.qtys e)) ->
     forall row, In row (snd (WSRows.generate_final_rows data)) ->
       length row = 4 + WSRows.max_qty_cols (fst (WSRows.generate_final_rows data))).
Proof.
  intros data. unfold WSRows.generate_final_rows. cbn [fst snd].
  set (fixed := map WSRows.fix_entry data).
  pose proof (max_qty_cols_positive fixed) as Hpos.
  split.
  - rewrite flat_map_length_const with (m := 2).
    + unfold fixed. rewrite length_map. lia.
    + intros e. destruct (entry_rows_shape e Hpos) as (r1 & r2 & -> & _).
      reflexivity.
  - intros Hle row Hrow. apply in_flat_map in Hrow as (e & He & Hrow).
    pose proof (max_qty_cols_upper _ _ He) as Hq.
    unfold fixed in He. apply in_map_iff in He as (e0 & <- & He0).
    specialize (Hle e0 He0).
    destruct (entry_rows_shape (WSRows.fix_entry e0) Hpos)
      as (r1 & r2 & Er & H1 & H2).
    rewrite Er in Hrow. cbn [WSRows.fix_entry WS.qtys WS.prices] in *.
    rewrite length_map in *.
    destruct Hrow as [<- | [<- | []]]; lia.
Qed.

Lemma ws_csv_has_two_rows_per_entry_pair :
  Forall (fun row => length row = 6)
    (snd (WSRows.generate_final_rows
            [WS.mkEntry ("T-Shirt", "u", "i") "S" ["1 - 5"; "6+"]
               ["$3"; "$2"] true;
             WS.mkEntry ("T-Shirt", "u", "i") "M" ["$5.00"] [] false])).
Proof.
  apply Forall_forall. intros row Hrow.
  apply (proj2 (ws_csv_has_two_rows_per_entry _)) in Hrow; [exact Hrow|].
  intros e [<- | [<- | []]]; simpl; lia.
Defined.

(** X16. Saving twice in a row writes the same file: [generate_final_rows]
    applied to the entries as its first call left them returns the same
    entries and the same rows. *)
Theorem ws_save_csv_idempotent :
  forall data : list WS.Entry,
    WSRows.save_csv (fst (WSRows.save_csv data)) = WSRows.save_csv data.
Proof.
  intros data. unfold WSRows.save_csv, WSRows.generate_final_rows.
  cbn [fst]. rewrite map_map.
  rewrite (map_ext _ _ ws_fix_entry_idempotent). reflexivity.
Qed.

(** X17. What [process_pricing_data] returns always gives the entry at
    least one quantity cell, and its prices are either none (a single
    price text) or as many as the quantities (a tiered table, read in
    parallel from the rows that have two cells). *)
Theorem ws_pricing_is_parallel :
  forall (p : WSRows.PricingDom) (q pr : list string),
    WS.split_pricing (WSRows.process_pricing_data p) = (q, pr) ->
    q <> [] /\ (pr = [] \/ length pr = length q).
Proof.
  intros p q pr. unfold WSRows.process_pricing_data, WSRows.fallback_price.
  destruct (WSRows.tier_rows p) as [[|r rows]|].
  - destruct (WSRows.total_price p); [|destruct (WSRows.product_price p)];
      intros [= <- <-]; split; auto; discriminate.
  - destruct (WSRows.tier_pairs (r :: rows)) as [|pair pairs] eqn:E.
    + destruct (WSRows.product_price p); intros [= <- <-];
        split; auto; discriminate.
    + cbn [WS.split_pricing]. intros [= <- <-]. split; [discriminate|].
      right. simpl. now rewrite !length_map.
  - destruct (WSRows.product_price p); intros [= <- <-];
      split; auto; discriminate.
Qed.

Lemma ws_pricing_is_parallel_table :
  WS.split_pricing
    (WSRows.process_pricing_data
       (WSRows.mkPricingDom
          (Some [["1-5"; "$3"]; ["x"]; [" 6+ "; "$2"; "z"]]) None None))
  = (["1-5"; "6+"], ["$3"; "$2"]) /\
  (["$3"; "$2"] = [] \/ length ["$3"; "$2"] = length ["1-5"; "6+"]).
Proof.
  assert (H : WS.split_pricing
                (WSRows.process_pricing_data
                   (WSRows.mkPricingDom
                      (Some [["1-5"; "$3"]; ["x"]; [" 6+ "; "$2"; "z"]])
                      None None))
              = (["1-5"; "6+"], ["$3"; "$2"])) by (vm_compute; reflexivity).
  split; [exact H|]. exact (proj2 (ws_pricing_is_parallel _ H)).
Defined.

Lemma first_flags_false (more : list WS.Entry) :
  first_flags false more -> Forall (fun e => WS.first e = false) more.
Proof.
  destruct more as [|e rest]; simpl; [constructor|].
  intros [H1 H2]. now constructor.
Qed.

Section WsEntries.

Variable d : WS.Dom.
Variable details : string * string * string.

Lemma ws_scrape_combos_entries (ids : list string)
    (combos : list (list (string * string))) :
  forall sel data first,
    exists more,
      WS.scrape_combos d details ids combos sel data first = data ++ more /\
      first_flags first more /\
      Forall (fun e => WS.product e = details) more.
Proof.
  induction combos as [|combo rest IH]; simpl; intros sel data first.
  - exists []. rewrite app_nil_r. repeat split. constructor.
  - destruct (WS.apply_combo d sel (combine ids combo)) as [sel' [|]];
      [|apply IH].
    destruct (WS.split_pricing (WS.pricing d sel')) as [q p].
    edestruct IH as (more & -> & Hf & Hp). rewrite <- app_assoc.
    eexists. split; [reflexivity|]. split.
    + simpl. split; [reflexivity|]. now apply first_flags_false.
    + constructor; [reflexivity | exact Hp].
Qed.

Lemma ws_scrape_options_entries (id : string)
    (option_list : list (string * string)) :
  forall sel data first,
    exists more,
      WS.scrape_options d details id option_list sel data first
      = data ++ more /\
      first_flags first more /\
      Forall (fun e => WS.product e = details) more.
Proof.
  induction option_list as [|[v t] rest IH]; simpl; intros sel data first.
  - exists []. rewrite app_nil_r. repeat split. constructor.
  - destruct (negb (WS.option_selectable d sel id v)); [apply IH|].
    destruct (WS.split_pricing (WS.pricing d ((id, v) :: sel))) as [q p].
    edestruct IH as (more & -> & Hf & Hp). rewrite <- app_assoc.
    eexists. split; [reflexivity|]. split.
    + simpl. split; [reflexivity|]. now apply first_flags_false.
    + constructor; [reflexivity | exact Hp].
Qed.

End WsEntries.

(** X18. The entries one product page adds to [option_data] all carry the
    name, the URL and the image of that page, the first of them is flagged
    [first] and no other is: the CSV shows the identity of a product on one
    row, and on that row only when the first combination was recorded. *)
Theorem ws_page_entries_are_flagged :
  forall (url : string) (d : WS.Dom) (data : list WS.Entry),
    exists more,
      WS.scrape_page url d data = data ++ more /\
      first_flags true more /\
      Forall (fun e => WS.product e = (WS.product_name d, url, WS.image_url d))
        more.
Proof.
  intros url d data. unfold WS.scrape_page.
  destruct (negb (WS.body_present d)).
  { exists []. rewrite app_nil_r. repeat split. constructor. }
  destruct (WS.dropdowns d) as [|dd [|dd' rest]].
  - destruct (WS.split_pricing (WS.pricing d [])) as [q p].
    eexists. split; [reflexivity|]. simpl. repeat split; repeat constructor.
  - destruct (WS.valid_opts dd) as [|o os].
    + destruct (WS.split_pricing (WS.pricing d [])) as [q p].
      eexists. split; [reflexivity|]. simpl. repeat split; repeat constructor.
    + apply ws_scrape_options_entries.
  - apply ws_scrape_combos_entries.
Qed.

Section WsRun.

Variable W : Type.
Variable get : W -> string -> W * option WS.Dom.
Variable is_logged_in : W -> bool.
Variable login_attempt : W -> W * bool.
Variable sleep : nat -> W -> W.
Variable netloc : string -> string.


End WsRun.


(** * Further properties of sd_scrape.py *)



Section SdRun.

Variable W : Type.
Variable get : W -> string -> W * option SD.Dom.
Variable login : W -> W * bool.
Variable netloc : string -> string.



End SdRun.


Lemma rstrip_idem (s : string) : Py.rstrip (Py.rstrip s) = Py.rstrip s.
Proof.
  induction s as [|a s IH]; simpl; trivial.
  destruct (Py.rstrip s) as [|b r] eqn:E.
  - destruct (Py.is_space a) eqn:Ea; simpl; trivial. now rewrite Ea.
  - change (Py.rstrip (String a (String b r)))
      with (match Py.rstrip (String b r) with
            | EmptyString =>
                if Py.is_space a then EmptyString else String a EmptyString
            | r' => String a r'
            end).
    now rewrite IH.
Qed.

Lemma lstrip_no_leading_space (s : string) : no_leading_space (Py.lstrip s).
Proof.
  induction s as [|a s IH]; simpl; trivial.
  destruct (Py.is_space a) eqn:E; simpl; trivial.
Qed.

Lemma rstrip_no_leading_space (s : string) :
  no_leading_space s -> no_leading_space (Py.rstrip s).
Proof.
  destruct s as [|a s]; simpl; trivial. intros Ha.
  destruct (Py.rstrip s); [rewrite Ha|]; simpl; trivial.
Qed.

Lemma lstrip_fixed (s : string) : no_leading_space s -> Py.lstrip s = s.
Proof. destruct s as [|a s]; simpl; trivial. now intros ->. Qed.

Lemma strip_idem (s : string) : Py.strip (Py.strip s) = Py.strip s.
Proof.
  unfold Py.strip.
  rewrite (lstrip_fixed (Py.rstrip (Py.lstrip s))).
  - apply rstrip_idem.
  - apply rstrip_no_leading_space, lstrip_no_leading_space.
Qed.

Lemma set_of_NoDup (l : list string) : NoDup l -> Py.set_of l = l.
Proof.
  unfold Py.set_of.
  assert (G : forall acc, NoDup (acc ++ l) ->
             fold_left (fun a x => Py.set_add x a) l acc = acc ++ l).
  { induction l as [|x l IH]; intros acc H; simpl; [now rewrite app_nil_r|].
    assert (Hx : Py.mem x acc = false).
    { destruct (Py.mem x acc) eqn:E; trivial. apply mem_In in E.
      apply NoDup_remove_2 in H. exfalso. apply H, in_or_app. now left. }
    unfold Py.set_add at 2. rewrite Hx.
    rewrite IH; rewrite <- app_assoc; trivial. }
  intros H. now apply (G []).
Qed.

(** X21. The known-URL set survives a write and a read: the set read from
    a file, written out by [update_scraped_urls] and read again by
    [read_scraped_urls], is the same set, in the same order. *)
Theorem sd_known_urls_round_trip :
  forall file0 file : list string,
    SD.read_scraped_urls
      (SD.update_scraped_urls file (SD.read_scraped_urls file0))
    = SD.read_scraped_urls file0.
Proof.
  intros file0 file. unfold SD.update_scraped_urls, SD.read_scraped_urls.
  set (known := Py.set_of (filter Py.truthy (map Py.strip file0))).
  assert (Hk : forall u, In u known -> Py.strip u = u /\ Py.truthy u = true).
  { intros u Hu. unfold known in Hu. apply (proj1 (In_set_of _ _)) in Hu.
    apply filter_In in Hu as [Hu Ht]. apply in_map_iff in Hu as (l & <- & _).
    split; [apply strip_idem | exact Ht]. }
  assert (Hm : map Py.strip known = known).
  { rewrite <- (map_id known) at 2. apply map_ext_in.
    intros u Hu. now apply Hk. }
  assert (Hf : filter Py.truthy known = known).
  { apply forallb_filter_id, forallb_forall. intros u Hu. now apply Hk. }
  rewrite Hm, Hf. apply set_of_NoDup, NoDup_set_of.
Qed.
